(** * Pedometer (src/pedometer.c, src/pedometer.h): shallow embedding

    Numeric model: the C [float]/[double] arithmetic is modelled as exact
    rational arithmetic ([Q]); every operation result is normalised with
    [Qred] so that equal values are Leibniz-equal.  The unsigned counters
    ([unsigned int]) are 32-bit with their wrap-around written out.
    The static and global variables of the C file are gathered in the
    record [state]; each C function becomes a function on that record. *)

From Stdlib Require Import QArith Qabs Qround Lqa ZArith List Lia.
Import ListNotations.

Open Scope Q_scope.

(** ** Arithmetic of the model *)

Definition qadd (x y : Q) : Q := Qred (x + y).
Definition qsub (x y : Q) : Q := Qred (x - y).
Definition qmul (x y : Q) : Q := Qred (x * y).
Definition qdiv (x y : Q) : Q := Qred (x / y).
Definition qabs (x : Q) : Q := Qred (Qabs x).
(** [x < y] and [x <= y] as the C comparison operators *)
Definition qltb (x y : Q) : bool := negb (Qle_bool y x).
Definition qleb (x y : Q) : bool := Qle_bool x y.

(** [unsigned int]: 32-bit, wrapping *)
Definition UINT_MOD : Z := 2 ^ 32.
Definition u32 (z : Z) : Z := Z.modulo z UINT_MOD.

(** ** pedometer.h constants *)

Definition EPSILON : Q := 1e-6.
Definition SENSOR_SAMP_FREQ : nat := 104.
Definition BUFF_FACTOR : nat := 2.
Definition SAMP_BUFF_LEN : nat := Nat.div SENSOR_SAMP_FREQ BUFF_FACTOR.
Definition MAX_TC_SAMPLES : nat := 20.

(** constants local to [step_algo_run] *)
Definition VERY_HIGH_VAL : Q := 100000.
Definition NO_DETECT_DUR_SEC : Q := 0.2.
Definition CLOSE_TO_ZERO : Q := 1.5.
Definition MAX_TIME_PERIOD_SEC : Q := 1.5.
Definition SMALL_AMP : Q := 5.0.
Definition LARGE_AMP : Q := 15.0.
Definition SLOW_FREQ : Q := 0.5.
Definition FAST_FREQ : Q := 2.2.

(** ** filter_t and apply_filter *)

Record filter_t := mk_filter {
  b0 : Q; b1 : Q; b2 : Q; a1 : Q; a2 : Q;
  prev_in : Q; prev_prev_in : Q; prev_out : Q; prev_prev_out : Q;
  TC_samples : nat }.

(** [apply_filter (filter_t *filt_data, float in_data)]: returns the output
    and the updated filter (the C function mutates [*filt_data]). *)
Definition apply_filter (f : filter_t) (in_data : Q) : Q * filter_t :=
  let out_data :=
    qsub (qsub (qadd (qadd (qmul (b0 f) in_data) (qmul (b1 f) (prev_in f)))
                     (qmul (b2 f) (prev_prev_in f)))
               (qmul (a1 f) (prev_out f)))
         (qmul (a2 f) (prev_prev_out f)) in
  (out_data,
   {| b0 := b0 f; b1 := b1 f; b2 := b2 f; a1 := a1 f; a2 := a2 f;
      prev_prev_in := prev_in f;
      prev_in := in_data;
      prev_prev_out := prev_out f;
      prev_out := out_data;
      TC_samples := TC_samples f |}).

(** [timeconst_samp = (unsigned int)(SENSOR_SAMP_FREQ*tau) + 1], capped *)
Definition timeconst_samp (tau : Q) : nat :=
  let t := (Z.to_nat (Qfloor (inject_Z (Z.of_nat SENSOR_SAMP_FREQ) * tau)) + 1)%nat in
  if Nat.ltb MAX_TC_SAMPLES t then MAX_TC_SAMPLES else t.

(** initialisation of [lp_filter_y] and [ll_filter_y] in [main] *)
Definition lp_filter_init : filter_t :=
  {| b0 := 7.2269463e-3; b1 := 1.4453893e-2; b2 := 7.2269463e-3;
     a1 := -1.7455322; a2 := 7.7444003e-1;
     prev_in := 0; prev_prev_in := 0; prev_out := 0; prev_prev_out := 0;
     TC_samples := timeconst_samp 0.075 |}.

Definition ll_filter_init : filter_t :=
  {| b0 := 2.5369363; b1 := 0; b2 := -2.5369363;
     a1 := -1.6641912; a2 := 0.71297842;
     prev_in := 0; prev_prev_in := 0; prev_out := 0; prev_prev_out := 0;
     TC_samples := timeconst_samp 0.06 |}.

(** ** Arrays *)

(** [a[i]] (out-of-range reads never happen in the code; they give 0) *)
Definition get (a : list Q) (i : nat) : Q := nth i a 0.

(** [a[i] = x] (all writes of the code are in range) *)
Fixpoint set (a : list Q) (i : nat) (x : Q) : list Q :=
  match a, i with
  | [], _ => []
  | _ :: a', O => x :: a'
  | y :: a', S i' => y :: set a' i' x
  end.

(** ** motion_type_t and algo_out_t *)

Inductive motion_type_t := STATIC | WALK | HOP | RUN.

Record algo_out_t := mk_out {
  step_count : Z;
  step_type : motion_type_t;
  prev_max : Q;
  prev_min : Q;
  prev_max_ts : Q;
  prev_min_ts : Q }.

(** ** Program state: the file-level globals and the function statics *)

Record state := mk_state {
  (* globals of pedometer.c used by the algorithm *)
  lp_filter_y : filter_t;
  ll_filter_y : filter_t;
  AccBuffY : list Q;            (* AccBuff[CHY][.] *)
  AccBuffT : list Q;            (* AccBuff[CHZ+1][.] *)
  step_algo_output : algo_out_t;
  num_steps_walk : Z;
  num_steps_run : Z;
  num_steps_hop : Z;
  (* static of step_algo_preproc *)
  count : nat;
  (* statics of step_algo_run *)
  prev_amp_est : Q;
  prev_freq_est : Q;
  amp_est_hold : nat;
  freq_est_hold : nat;
  prevAccDer : Q;
  AccFilt : list Q;             (* SAMP_BUFF_LEN + MAX_TC_SAMPLES *)
  TimeStamps : list Q;          (* SAMP_BUFF_LEN + MAX_TC_SAMPLES *)
  AccDer : list Q }.            (* SAMP_BUFF_LEN *)

Definition zeros (n : nat) : list Q := repeat 0 n.

(** state at the start of the input loop of [main] *)
Definition init_state : state :=
  {| lp_filter_y := lp_filter_init;
     ll_filter_y := ll_filter_init;
     AccBuffY := zeros SAMP_BUFF_LEN;
     AccBuffT := zeros SAMP_BUFF_LEN;
     step_algo_output :=
       {| step_count := 0; step_type := STATIC;
          prev_max := 0; prev_min := 0; prev_max_ts := 0; prev_min_ts := 0 |};
     num_steps_walk := 0; num_steps_run := 0; num_steps_hop := 0;
     count := 0;
     prev_amp_est := 0; prev_freq_est := 0;
     amp_est_hold := 0; freq_est_hold := 0;
     prevAccDer := 0;
     AccFilt := zeros (SAMP_BUFF_LEN + MAX_TC_SAMPLES);
     TimeStamps := zeros (SAMP_BUFF_LEN + MAX_TC_SAMPLES);
     AccDer := zeros SAMP_BUFF_LEN |}.

(** ** step_algo_preproc *)

Definition with_preproc (st : state) (lp : filter_t) (bufY bufT : list Q) (c : nat) : state :=
  {| lp_filter_y := lp; ll_filter_y := ll_filter_y st;
     AccBuffY := bufY; AccBuffT := bufT;
     step_algo_output := step_algo_output st;
     num_steps_walk := num_steps_walk st; num_steps_run := num_steps_run st;
     num_steps_hop := num_steps_hop st;
     count := c;
     prev_amp_est := prev_amp_est st; prev_freq_est := prev_freq_est st;
     amp_est_hold := amp_est_hold st; freq_est_hold := freq_est_hold st;
     prevAccDer := prevAccDer st; AccFilt := AccFilt st;
     TimeStamps := TimeStamps st; AccDer := AccDer st |}.

(** [step_algo_preproc(timestamp, arx, ary, arz, grx, gry, grz)]: returns
    [ret_val] and the updated state. *)
Definition step_algo_preproc (st : state)
    (timestamp arx ary arz grx gry grz : Q) : nat * state :=
  let (ary_flt, lp') := apply_filter (lp_filter_y st) ary in
  let bufY := set (AccBuffY st) (count st) ary_flt in
  let bufT := set (AccBuffT st) (count st) timestamp in
  let c := S (count st) in
  if Nat.eqb c SAMP_BUFF_LEN
  then (1%nat, with_preproc st lp' bufY bufT 0)
  else (0%nat, with_preproc st lp' bufY bufT c).

(** ** step_algo_run *)

(** [for (i = i0; i < i0 + n; i++) body] *)
Fixpoint for_loop {A : Type} (body : nat -> A -> A) (i n : nat) (a : A) : A :=
  match n with
  | O => a
  | S n' => for_loop body (S i) n' (body i a)
  end.

(** body of the first loop: derivative and extended buffers *)
Definition der_body (TC : nat) (bufY bufT : list Q) (i : nat)
    (x : filter_t * list Q * list Q * list Q) : filter_t * list Q * list Q * list Q :=
  let '(ll, der, filt, ts) := x in
  let (d, ll') := apply_filter ll (get bufY i) in
  (ll', set der i d, set filt (TC + i) (get bufY i), set ts (TC + i) (get bufT i)).

(** local variables of the detection loop (and the static [prevAccDer]) *)
Record det := mk_det {
  prev_max_val : Q; d_prev_max_ts : Q; prev_min_val : Q; d_prev_min_ts : Q;
  new_max_val : Q; new_max_ts : Q; new_min_val : Q; new_min_ts : Q;
  avg_max_val : Q; avg_min_val : Q; avg_time_period : Q; amp_est : Q;
  count_max_det : nat; count_min_det : nat;
  d_prevAccDer : Q }.

Definition set_prevAccDer (d : det) (p : Q) : det :=
  {| prev_max_val := prev_max_val d; d_prev_max_ts := d_prev_max_ts d;
     prev_min_val := prev_min_val d; d_prev_min_ts := d_prev_min_ts d;
     new_max_val := new_max_val d; new_max_ts := new_max_ts d;
     new_min_val := new_min_val d; new_min_ts := new_min_ts d;
     avg_max_val := avg_max_val d; avg_min_val := avg_min_val d;
     avg_time_period := avg_time_period d; amp_est := amp_est d;
     count_max_det := count_max_det d; count_min_det := count_min_det d;
     d_prevAccDer := p |}.

Definition set_new_max_val (d : det) (v : Q) : det :=
  {| prev_max_val := prev_max_val d; d_prev_max_ts := d_prev_max_ts d;
     prev_min_val := prev_min_val d; d_prev_min_ts := d_prev_min_ts d;
     new_max_val := v; new_max_ts := new_max_ts d;
     new_min_val := new_min_val d; new_min_ts := new_min_ts d;
     avg_max_val := avg_max_val d; avg_min_val := avg_min_val d;
     avg_time_period := avg_time_period d; amp_est := amp_est d;
     count_max_det := count_max_det d; count_min_det := count_min_det d;
     d_prevAccDer := d_prevAccDer d |}.

Definition set_new_max_ts (d : det) (t : Q) : det :=
  {| prev_max_val := prev_max_val d; d_prev_max_ts := d_prev_max_ts d;
     prev_min_val := prev_min_val d; d_prev_min_ts := d_prev_min_ts d;
     new_max_val := new_max_val d; new_max_ts := t;
     new_min_val := new_min_val d; new_min_ts := new_min_ts d;
     avg_max_val := avg_max_val d; avg_min_val := avg_min_val d;
     avg_time_period := avg_time_period d; amp_est := amp_est d;
     count_max_det := count_max_det d; count_min_det := count_min_det d;
     d_prevAccDer := d_prevAccDer d |}.

Definition set_new_min (d : det) (v t : Q) : det :=
  {| prev_max_val := prev_max_val d; d_prev_max_ts := d_prev_max_ts d;
     prev_min_val := prev_min_val d; d_prev_min_ts := d_prev_min_ts d;
     new_max_val := new_max_val d; new_max_ts := new_max_ts d;
     new_min_val := v; new_min_ts := t;
     avg_max_val := avg_max_val d; avg_min_val := avg_min_val d;
     avg_time_period := avg_time_period d; amp_est := amp_est d;
     count_max_det := count_max_det d; count_min_det := count_min_det d;
     d_prevAccDer := d_prevAccDer d |}.

Definition set_prev_max_ts (d : det) (t : Q) : det :=
  {| prev_max_val := prev_max_val d; d_prev_max_ts := t;
     prev_min_val := prev_min_val d; d_prev_min_ts := d_prev_min_ts d;
     new_max_val := new_max_val d; new_max_ts := new_max_ts d;
     new_min_val := new_min_val d; new_min_ts := new_min_ts d;
     avg_max_val := avg_max_val d; avg_min_val := avg_min_val d;
     avg_time_period := avg_time_period d; amp_est := amp_est d;
     count_max_det := count_max_det d; count_min_det := count_min_det d;
     d_prevAccDer := d_prevAccDer d |}.

Definition set_prev_min_ts (d : det) (t : Q) : det :=
  {| prev_max_val := prev_max_val d; d_prev_max_ts := d_prev_max_ts d;
     prev_min_val := prev_min_val d; d_prev_min_ts := t;
     new_max_val := new_max_val d; new_max_ts := new_max_ts d;
     new_min_val := new_min_val d; new_min_ts := new_min_ts d;
     avg_max_val := avg_max_val d; avg_min_val := avg_min_val d;
     avg_time_period := avg_time_period d; amp_est := amp_est d;
     count_max_det := count_max_det d; count_min_det := count_min_det d;
     d_prevAccDer := d_prevAccDer d |}.

(** lines 309-313 *)
Definition commit_max (d : det) : det :=
  {| prev_max_val := new_max_val d; d_prev_max_ts := new_max_ts d;
     prev_min_val := prev_min_val d; d_prev_min_ts := d_prev_min_ts d;
     new_max_val := new_max_val d; new_max_ts := new_max_ts d;
     new_min_val := new_min_val d; new_min_ts := new_min_ts d;
     avg_max_val := qadd (avg_max_val d) (new_max_val d);
     avg_min_val := avg_min_val d;
     avg_time_period := qadd (avg_time_period d) (qsub (new_max_ts d) (d_prev_max_ts d));
     amp_est := amp_est d;
     count_max_det := S (count_max_det d); count_min_det := count_min_det d;
     d_prevAccDer := d_prevAccDer d |}.

(** lines 332-339 *)
Definition commit_min (d : det) : det :=
  {| prev_max_val := prev_max_val d; d_prev_max_ts := d_prev_max_ts d;
     prev_min_val := new_min_val d; d_prev_min_ts := new_min_ts d;
     new_max_val := new_max_val d; new_max_ts := new_max_ts d;
     new_min_val := new_min_val d; new_min_ts := new_min_ts d;
     avg_max_val := avg_max_val d;
     avg_min_val := qadd (avg_min_val d) (new_min_val d);
     avg_time_period := qadd (avg_time_period d) (qsub (new_min_ts d) (d_prev_min_ts d));
     amp_est := qadd (amp_est d) (qsub (prev_max_val d) (new_min_val d));
     count_max_det := count_max_det d; count_min_det := S (count_min_det d);
     d_prevAccDer := d_prevAccDer d |}.

(** [delta] of [step_algo_run] *)
Definition delta : nat := 1.

(** body of the detection loop, lines 292-343 *)
Definition detect_body (der filt ts : list Q) (i : nat) (d0 : det) : det :=
  let d := if Nat.leb delta i then set_prevAccDer d0 (get der (i - delta)) else d0 in
  if qleb (d_prev_max_ts d) (d_prev_min_ts d) then
    (* need to find the next max val (falling ZC) *)
    if qltb (get der i) (- EPSILON) && qleb 0 (d_prevAccDer d) then
      if qltb NO_DETECT_DUR_SEC (qsub (get ts i) (d_prev_max_ts d)) then
        let d1 := set_new_max_val d (get filt i) in
        if qltb CLOSE_TO_ZERO (qabs (new_max_val d1)) then
          let d2 := set_new_max_ts d1 (get ts i) in
          let d3 := if qltb (qadd (d_prev_max_ts d2) MAX_TIME_PERIOD_SEC) (new_max_ts d2)
                    then set_prev_max_ts d2 (qsub (new_max_ts d2) MAX_TIME_PERIOD_SEC)
                    else d2 in
          if qltb CLOSE_TO_ZERO (qsub (new_max_val d3) (prev_min_val d3))
          then commit_max d3 else d3
        else d1
      else d
    else d
  else
    (* need to find the next min val (rising ZC) *)
    if qltb EPSILON (get der i) && qleb (d_prevAccDer d) 0 then
      if qltb NO_DETECT_DUR_SEC (qsub (get ts i) (d_prev_min_ts d)) then
        let d1 := set_new_min d (get filt i) (get ts i) in
        let d2 := if qltb (qadd (d_prev_min_ts d1) MAX_TIME_PERIOD_SEC) (new_min_ts d1)
                  then set_prev_min_ts d1 (qsub (new_min_ts d1) MAX_TIME_PERIOD_SEC)
                  else d1 in
        if qltb CLOSE_TO_ZERO (qsub (prev_max_val d2) (new_min_val d2))
        then commit_min d2 else d2
      else d
    else d.

(** loop variables at line 291 *)
Definition det_init (o : algo_out_t) (pad : Q) : det :=
  {| prev_max_val := prev_max o; d_prev_max_ts := prev_max_ts o;
     prev_min_val := prev_min o; d_prev_min_ts := prev_min_ts o;
     new_max_val := - VERY_HIGH_VAL; new_max_ts := 0;
     new_min_val := VERY_HIGH_VAL; new_min_ts := 0;
     avg_max_val := 0; avg_min_val := 0; avg_time_period := 0; amp_est := 0;
     count_max_det := 0; count_min_det := 0;
     d_prevAccDer := pad |}.

Definition detect_loop (der filt ts : list Q) (d : det) : det :=
  for_loop (detect_body der filt ts) 0 SAMP_BUFF_LEN d.

(** lines 346-357: amplitude estimate and its hold counter *)
Definition amp_update (d : det) (prev_amp : Q) (hold : nat) : Q * nat :=
  let '(a, h) :=
    if Nat.ltb 0 (count_min_det d)
    then (qdiv (amp_est d) (inject_Z (Z.of_nat (count_min_det d))), 0%nat)
    else (prev_amp, S hold) in
  if Nat.ltb BUFF_FACTOR h then (0, 0%nat) else (a, h).

(** lines 359-361: average time period *)
Definition period_update (d : det) : Q :=
  if Nat.ltb 0 (count_max_det d + count_min_det d)
  then qdiv (avg_time_period d)
            (inject_Z (Z.of_nat (count_max_det d + count_min_det d)))
  else avg_time_period d.

(** lines 362-373: frequency estimate and its hold counter *)
Definition freq_update (period prev_freq : Q) (hold : nat) : Q * nat :=
  let '(f, h) :=
    if qltb EPSILON period
    then (qdiv 1 period, 0%nat)
    else (prev_freq, S hold) in
  if Nat.ltb BUFF_FACTOR h then (0, 0%nat) else (f, h).

(** lines 376-379: the tail body *)
Definition tail_body (TC : nat) (bufY bufT : list Q) (i : nat)
    (x : list Q * list Q) : list Q * list Q :=
  let '(filt, ts) := x in
  (set filt i (get bufY (SAMP_BUFF_LEN - TC + i)),
   set ts i (get bufT (SAMP_BUFF_LEN - TC + i))).

(** lines 391-424: the motion type and the per-class counters *)
Definition classify (amp freq : Q) (cmin : nat) (walk run hop : Z)
    : motion_type_t * Z * Z * Z :=
  let c := Z.of_nat cmin in
  if qleb amp SMALL_AMP then
    if qleb freq SLOW_FREQ then (STATIC, walk, run, hop)
    else (WALK, u32 (walk + c), run, hop)
  else if qleb LARGE_AMP amp then
    if qleb FAST_FREQ freq then (RUN, walk, u32 (run + c), hop)
    else (HOP, walk, run, u32 (hop + c))
  else
    if qleb FAST_FREQ freq then (RUN, walk, u32 (run + c), hop)
    else (WALK, u32 (walk + c), run, hop).

(** the first loop of [step_algo_run], lines 278-287 *)
Definition der_loop (st : state) : filter_t * list Q * list Q * list Q :=
  for_loop (der_body (TC_samples (ll_filter_y st)) (AccBuffY st) (AccBuffT st))
           0 SAMP_BUFF_LEN
           (ll_filter_y st, AccDer st, AccFilt st, TimeStamps st).

(** the loop variables after the detection loop, line 344 *)
Definition batch_det (st : state) : det :=
  let '(_, der, filt, ts) := der_loop st in
  detect_loop der filt ts (det_init (step_algo_output st) (prevAccDer st)).

(** [step_algo_run(&step_algo_output)] *)
Definition step_algo_run (st : state) : state :=
  let TC := TC_samples (ll_filter_y st) in
  let '(ll', der, filt, ts) := der_loop st in
  let d := batch_det st in
  let '(amp, ahold) := amp_update d (prev_amp_est st) (amp_est_hold st) in
  let period := period_update d in
  let '(freq, fhold) := freq_update period (prev_freq_est st) (freq_est_hold st) in
  let '(filt', ts') := for_loop (tail_body TC (AccBuffY st) (AccBuffT st)) 0 TC (filt, ts) in
  let o := step_algo_output st in
  let '(ty, walk, run, hop) :=
    classify amp freq (count_min_det d)
             (num_steps_walk st) (num_steps_run st) (num_steps_hop st) in
  {| lp_filter_y := lp_filter_y st; ll_filter_y := ll';
     AccBuffY := AccBuffY st; AccBuffT := AccBuffT st;
     step_algo_output :=
       {| step_count := u32 (step_count o + Z.of_nat (count_min_det d));
          step_type := ty;
          prev_max := prev_max_val d; prev_min := prev_min_val d;
          prev_max_ts := d_prev_max_ts d; prev_min_ts := d_prev_min_ts d |};
     num_steps_walk := walk; num_steps_run := run; num_steps_hop := hop;
     count := count st;
     prev_amp_est := amp; prev_freq_est := freq;
     amp_est_hold := ahold; freq_est_hold := fhold;
     prevAccDer := get der (SAMP_BUFF_LEN - 1);
     AccFilt := filt'; TimeStamps := ts'; AccDer := der |}.

(** ** The input loop of main *)

Record sample := mk_sample {
  s_timestamp : Q; s_arx : Q; s_ary : Q; s_arz : Q; s_grx : Q; s_gry : Q; s_grz : Q }.

(** one iteration of the input loop (lines 166-170) *)
Definition push_sample (st : state) (x : sample) : nat * state :=
  let '(run_step_algo, st1) :=
    step_algo_preproc st (s_timestamp x) (s_arx x) (s_ary x) (s_arz x)
                      (s_grx x) (s_gry x) (s_grz x) in
  if Nat.eqb run_step_algo 1 then (run_step_algo, step_algo_run st1)
  else (run_step_algo, st1).

Fixpoint run_samples (st : state) (xs : list sample) : state :=
  match xs with
  | [] => st
  | x :: xs' => run_samples (snd (push_sample st x)) xs'
  end.

(** what the C program shows after each sample: the detector-run flag,
    [step_count], [step_type] and the three per-class counters *)
Definition observe (run_flag : nat) (st : state) : nat * Z * motion_type_t * Z * Z * Z :=
  (run_flag, step_count (step_algo_output st), step_type (step_algo_output st),
   num_steps_walk st, num_steps_run st, num_steps_hop st).

Fixpoint outputs (st : state) (xs : list sample) : list (nat * Z * motion_type_t * Z * Z * Z) :=
  match xs with
  | [] => []
  | x :: xs' =>
      let '(r, st') := push_sample st x in
      observe r st' :: outputs st' xs'
  end.

(** ** Observation of the detection loop

    These definitions do not change the program: they record, for every
    iteration of the detection loop that the run executes, the arrays the
    loop reads, the index and the loop variables at the start of the
    iteration. *)

Record iter := mk_iter {
  it_der : list Q; it_filt : list Q; it_ts : list Q;
  it_i : nat; it_det : det }.

(** loop variables after the iteration *)
Definition it_after (it : iter) : det :=
  detect_body (it_der it) (it_filt it) (it_ts it) (it_i it) (it_det it).

Fixpoint loop_trace (der filt ts : list Q) (i n : nat) (d : det) : list iter :=
  match n with
  | O => []
  | S n' => mk_iter der filt ts i d :: loop_trace der filt ts (S i) n' (detect_body der filt ts i d)
  end.

(** the iterations of one call of [step_algo_run] *)
Definition batch_trace (st : state) : list iter :=
  let '(_, der, filt, ts) := der_loop st in
  loop_trace der filt ts 0 SAMP_BUFF_LEN (det_init (step_algo_output st) (prevAccDer st)).

(** the iterations of all calls of [step_algo_run] during a run *)
Fixpoint run_trace (st : state) (xs : list sample) : list iter :=
  match xs with
  | [] => []
  | x :: xs' =>
      let '(r, st1) :=
        step_algo_preproc st (s_timestamp x) (s_arx x) (s_ary x) (s_arz x)
                          (s_grx x) (s_gry x) (s_grz x) in
      (if Nat.eqb r 1 then batch_trace st1 else [])
        ++ run_trace (snd (push_sample st x)) xs'
  end.

(** commits of the loop: a confirmed maximum or minimum and the timestamp
    and value it was committed with *)
Inductive kind := KMax | KMin.

Definition iter_commit (it : iter) : option (kind * Q * Q) :=
  let d := it_det it in
  let d' := it_after it in
  if Nat.ltb (count_max_det d) (count_max_det d')
  then Some (KMax, d_prev_max_ts d', prev_max_val d')
  else if Nat.ltb (count_min_det d) (count_min_det d')
  then Some (KMin, d_prev_min_ts d', prev_min_val d')
  else None.

(** the commits of a list of iterations, in order *)
Definition commits_of (l : list iter) : list (kind * Q * Q) :=
  flat_map (fun it => match iter_commit it with Some c => [c] | None => [] end) l.

Definition run_commits (st : state) (xs : list sample) : list (kind * Q * Q) :=
  commits_of (run_trace st xs).

(** ** The outcomes of one iteration of the detection loop *)

(** the three outcomes of an iteration: no commit, a maximum committed,
    a minimum committed *)
Definition no_commit (d d' : det) : Prop :=
  count_max_det d' = count_max_det d /\ count_min_det d' = count_min_det d /\
  prev_max_val d' = prev_max_val d /\ prev_min_val d' = prev_min_val d /\
  avg_time_period d' = avg_time_period d /\ amp_est d' = amp_est d /\
  d_prev_max_ts d <= d_prev_max_ts d' /\ d_prev_min_ts d <= d_prev_min_ts d'.

Definition max_commit (filt ts : list Q) (i : nat) (d d' : det) : Prop :=
  d_prev_max_ts d <= d_prev_min_ts d /\
  count_max_det d' = S (count_max_det d) /\ count_min_det d' = count_min_det d /\
  prev_max_val d' = get filt i /\ d_prev_max_ts d' = get ts i /\
  d_prev_max_ts d + NO_DETECT_DUR_SEC < get ts i /\
  prev_min_val d' = prev_min_val d /\ d_prev_min_ts d' = d_prev_min_ts d /\
  CLOSE_TO_ZERO < qabs (get filt i) /\
  CLOSE_TO_ZERO < qsub (get filt i) (prev_min_val d) /\
  amp_est d' = amp_est d /\
  exists term, NO_DETECT_DUR_SEC < term /\ term <= MAX_TIME_PERIOD_SEC /\
    avg_time_period d' == avg_time_period d + term.

Definition min_commit (filt ts : list Q) (i : nat) (d d' : det) : Prop :=
  d_prev_min_ts d < d_prev_max_ts d /\
  count_min_det d' = S (count_min_det d) /\ count_max_det d' = count_max_det d /\
  prev_min_val d' = get filt i /\ d_prev_min_ts d' = get ts i /\
  d_prev_min_ts d + NO_DETECT_DUR_SEC < get ts i /\
  prev_max_val d' = prev_max_val d /\ d_prev_max_ts d' = d_prev_max_ts d /\
  CLOSE_TO_ZERO < qsub (prev_max_val d) (get filt i) /\
  amp_est d' == amp_est d + (prev_max_val d - get filt i) /\
  exists term, NO_DETECT_DUR_SEC < term /\ term <= MAX_TIME_PERIOD_SEC /\
    avg_time_period d' == avg_time_period d + term.


(** the peak-to-trough swing [prev_max_val - new_min_val] that line 331
    compares with [CLOSE_TO_ZERO], when the iteration reaches that test *)
Definition iter_min_swing (it : iter) : option Q :=
  let der := it_der it in
  let filt := it_filt it in
  let ts := it_ts it in
  let i := it_i it in
  let d0 := it_det it in
  let d := if Nat.leb delta i then set_prevAccDer d0 (get der (i - delta)) else d0 in
  if qleb (d_prev_max_ts d) (d_prev_min_ts d) then None
  else if qltb EPSILON (get der i) && qleb (d_prevAccDer d) 0 then
    if qltb NO_DETECT_DUR_SEC (qsub (get ts i) (d_prev_min_ts d)) then
      let d1 := set_new_min d (get filt i) (get ts i) in
      let d2 := if qltb (qadd (d_prev_min_ts d1) MAX_TIME_PERIOD_SEC) (new_min_ts d1)
                then set_prev_min_ts d1 (qsub (new_min_ts d1) MAX_TIME_PERIOD_SEC)
                else d1 in
      Some (qsub (prev_max_val d2) (new_min_val d2))
    else None
  else None.

(** the swing of the iteration, if examined, is at most [CLOSE_TO_ZERO] *)
Definition swing_small (it : iter) : bool :=
  match iter_min_swing it with
  | Some s => qleb s CLOSE_TO_ZERO
  | None => true
  end.

(** a commit of the iteration has the value and timestamp found at index
    [off + i] of the extended arrays *)
Definition commit_at (off : nat) (it : iter) : bool :=
  match iter_commit it with
  | Some (_, t, v) =>
      Qeq_bool v (get (it_filt it) (off + it_i it)) &&
      Qeq_bool t (get (it_ts it) (off + it_i it))
  | None => true
  end.

(** no two consecutive commits of the same kind *)
Fixpoint alternates (l : list (kind * Q * Q)) : bool :=
  match l with
  | (k1, _, _) :: (((k2, _, _) :: _) as l') =>
      match k1, k2 with
      | KMax, KMax | KMin, KMin => false
      | _, _ => alternates l'
      end
  | _ => true
  end.

(** the same kind *)
Definition same_kind (k1 k2 : kind) : Prop :=
  match k1, k2 with
  | KMax, KMax | KMin, KMin => True
  | _, _ => False
  end.

(** two commits of the same kind are more than [NO_DETECT_DUR_SEC] apart *)
Definition dead_time_sep (c1 c2 : kind * Q * Q) : Prop :=
  let '(k1, t1, _) := c1 in
  let '(k2, t2, _) := c2 in
  same_kind k1 k2 -> t1 + NO_DETECT_DUR_SEC < t2.

(** the commits [L] of a stretch of the run, entered with remembered
    timestamps [m0] (maximum) and [n0] (minimum) and left with [m1], [n1]:
    same-kind commits of [L] are dead-time separated, each commit lies
    more than [NO_DETECT_DUR_SEC] after the entry timestamp of its kind and
    at most at the exit one, and the timestamps do not go back *)
Definition seg (m0 n0 : Q) (L : list (kind * Q * Q)) (m1 n1 : Q) : Prop :=
  ForallOrdPairs dead_time_sep L /\
  (forall k t v, In (k, t, v) L ->
     match k with
     | KMax => m0 + NO_DETECT_DUR_SEC < t /\ t <= m1
     | KMin => n0 + NO_DETECT_DUR_SEC < t /\ t <= n1
     end) /\
  m0 <= m1 /\ n0 <= n1.

(** what the detection loop can change between two of its states: the
    counters only grow, a remembered extremum value changes only with a
    commit of its kind, the remembered timestamps never decrease *)
Definition det_mono (d d' : det) : Prop :=
  (count_max_det d <= count_max_det d')%nat /\ (count_min_det d <= count_min_det d')%nat /\
  (count_max_det d' = count_max_det d -> prev_max_val d' = prev_max_val d) /\
  (count_min_det d' = count_min_det d -> prev_min_val d' = prev_min_val d) /\
  d_prev_max_ts d <= d_prev_max_ts d' /\ d_prev_min_ts d <= d_prev_min_ts d'.

(** the counters after [n] samples: non-negative, [step_count] their exact
    sum, and at most one step per sample of the completed batches *)
Definition counters_ok (st : state) (n : nat) : Prop :=
  (0 <= num_steps_walk st)%Z /\ (0 <= num_steps_run st)%Z /\ (0 <= num_steps_hop st)%Z /\
  step_count (step_algo_output st) = (num_steps_walk st + num_steps_run st + num_steps_hop st)%Z /\
  (num_steps_walk st + num_steps_run st + num_steps_hop st + Z.of_nat (Nat.modulo n 52)
     <= Z.of_nat n)%Z.

(** a filter whose four history values are 0 *)
Definition filter_quiet (f : filter_t) : Prop :=
  prev_in f == 0 /\ prev_prev_in f == 0 /\ prev_out f == 0 /\ prev_prev_out f == 0.

(** a state that has seen only zero [ary] input since the start *)
Definition quiet (st : state) : Prop :=
  filter_quiet (lp_filter_y st) /\ filter_quiet (ll_filter_y st) /\
  (forall j, get (AccBuffY st) j = 0) /\ (forall j, get (AccDer st) j = 0) /\
  prev_amp_est st = 0 /\ prev_freq_est st = 0 /\
  step_count (step_algo_output st) = 0%Z /\ step_type (step_algo_output st) = STATIC /\
  num_steps_walk st = 0%Z /\ num_steps_run st = 0%Z /\ num_steps_hop st = 0%Z.

(** ** Inputs *)

(** sample [n] at [(n + 1) / SENSOR_SAMP_FREQ] s *)
Definition ts_at (n : nat) : Q := Qred (inject_Z (Z.of_nat (S n)) / 104).

(** the same clock with a pause of 2 s before sample [g] *)
Definition ts_gap (g n : nat) : Q := Qred (ts_at n + if Nat.leb g n then 2 else 0).

(** [n] samples with timestamps [tsf] and [ary] values [f], the other
    channels zero *)
Definition samples (tsf f : nat -> Q) (n : nat) : list sample :=
  map (fun i => mk_sample (tsf i) 0 (f i) 0 0 0 0) (seq 0 n).

Definition ary1 (i : nat) : Q :=
  if Nat.ltb i 40 then 0 else if Nat.ltb i 50 then 1000 else -100000.
Definition xs1 : list sample := samples ts_at ary1 52.

Definition ary3 (i : nat) : Q :=
  if Nat.ltb i 30 then 0 else if Nat.ltb i 41 then 1000
  else if Nat.ltb i 43 then -30000 else if Nat.ltb i 44 then 0
  else if Nat.ltb i 45 then 10000000 else -100000000.
Definition xs3 : list sample := samples (ts_gap 37) ary3 52.

Definition ary10 (i : nat) : Q :=
  if Nat.ltb i 37 then 0 else if Nat.ltb i 48 then -1000
  else if Nat.ltb i 50 then 30000 else if Nat.ltb i 51 then 0 else -10000000.
Definition xs10 : list sample := samples (ts_gap 44) ary10 52.

(** two batches of samples with [ary] 0 and other channels non-zero *)
Definition xs_still : list sample :=
  map (fun i => mk_sample (ts_at i) 1 0 (-3) 2 0 5) (seq 0 104).

(** the state with which the 52nd sample of [xs10] calls [step_algo_run] *)
Definition st10 : state :=
  snd (step_algo_preproc (run_samples init_state (firstn 51 xs10))
                         (ts_gap 44 51) 0 (ary10 51) 0 0 0 0).

(** 52 samples at rest *)
Definition xs_rest : list sample := samples ts_at (fun _ => 0) 52.

(** ** Facts about the arithmetic *)

Lemma qltb_true (x y : Q) : qltb x y = true <-> x < y.
Proof.
  unfold qltb. rewrite Bool.negb_true_iff. split; intro H.
  - apply Qnot_le_lt. intro H'. apply Qle_bool_iff in H'. congruence.
  - destruct (Qle_bool y x) eqn:E; [|reflexivity].
    apply Qle_bool_iff in E. exfalso. apply (Qlt_not_le _ _ H E).
Qed.

Lemma qltb_false (x y : Q) : qltb x y = false <-> y <= x.
Proof.
  unfold qltb. rewrite Bool.negb_false_iff. apply Qle_bool_iff.
Qed.

Lemma qleb_true (x y : Q) : qleb x y = true <-> x <= y.
Proof. apply Qle_bool_iff. Qed.

Lemma qleb_false (x y : Q) : qleb x y = false <-> y < x.
Proof.
  unfold qleb. split; intro H.
  - apply Qnot_le_lt. intro H'. apply Qle_bool_iff in H'. congruence.
  - destruct (Qle_bool x y) eqn:E; [|reflexivity].
    apply Qle_bool_iff in E. exfalso. apply (Qlt_not_le _ _ H E).
Qed.

Lemma qadd_eq (x y : Q) : qadd x y == x + y.
Proof. apply Qred_correct. Qed.
Lemma qsub_eq (x y : Q) : qsub x y == x - y.
Proof. apply Qred_correct. Qed.
Lemma qmul_eq (x y : Q) : qmul x y == x * y.
Proof. apply Qred_correct. Qed.
Lemma qdiv_eq (x y : Q) : qdiv x y == x / y.
Proof. apply Qred_correct. Qed.

(** turn the boolean comparisons of the hypotheses into propositions *)
Ltac qbool :=
  repeat match goal with
  | H : qltb _ _ = true |- _ => apply qltb_true in H
  | H : qltb _ _ = false |- _ => apply qltb_false in H
  | H : qleb _ _ = true |- _ => apply qleb_true in H
  | H : qleb _ _ = false |- _ => apply qleb_false in H
  | H : (_ && _)%bool = true |- _ => apply andb_prop in H; destruct H
  end.

(** ** Facts about the loops *)

Lemma for_loop_S {A : Type} (body : nat -> A -> A) (i n : nat) (a : A) :
  for_loop body i (S n) a = for_loop body (S i) n (body i a).
Proof. reflexivity. Qed.

(** a property kept by every iteration holds after the loop *)
Lemma for_loop_ind {A : Type} (P : A -> Prop) (body : nat -> A -> A) :
  (forall i a, P a -> P (body i a)) ->
  forall n i a, P a -> P (for_loop body i n a).
Proof.
  intros Hb n. induction n as [|n IH]; intros i a Ha; simpl; auto.
Qed.

(** the detection loop is the last state of its trace *)
Lemma detect_loop_trace (der filt ts : list Q) (P : det -> det -> Prop) :
  (forall d, P d d) ->
  (forall d1 d2 d3, P d1 d2 -> P d2 d3 -> P d1 d3) ->
  forall n i d,
    (forall it, In it (loop_trace der filt ts i n d) -> P (it_det it) (it_after it)) ->
    P d (for_loop (detect_body der filt ts) i n d).
Proof.
  intros Hrefl Htrans n. induction n as [|n IH]; intros i d Hall; simpl.
  - apply Hrefl.
  - apply Htrans with (detect_body der filt ts i d).
    + apply (Hall (mk_iter der filt ts i d)). left; reflexivity.
    + apply IH. intros it Hin. apply Hall. right; exact Hin.
Qed.

Ltac if_cases :=
  repeat match goal with
  | |- context [if ?c then _ else _] => destruct c eqn:?
  end.


Ltac qnorm := repeat rewrite qadd_eq in *; repeat rewrite qsub_eq in *.
Ltac qconst := unfold NO_DETECT_DUR_SEC, MAX_TIME_PERIOD_SEC, CLOSE_TO_ZERO in *.
Ltac conj_split := repeat match goal with |- _ /\ _ => split end.
Ltac pick_term :=
  match goal with |- exists t, _ /\ _ /\ qadd ?a ?x == _ => exists x end.
Ltac leaf :=
  first [ reflexivity | assumption
        | pick_term; qnorm; qconst; conj_split; lra
        | qnorm; qconst; lra ].
Ltac solve_nc :=
  split; [reflexivity|]; split; [reflexivity|]; conj_split; leaf.
Ltac solve_mc :=
  split; [assumption|]; split; [reflexivity|]; split; [reflexivity|]; conj_split; leaf.

(** ** One iteration of the detection loop *)

(** every iteration commits nothing, a maximum, or a minimum *)
Lemma detect_body_cases (der filt ts : list Q) (i : nat) (d : det) :
  let d' := detect_body der filt ts i d in
  no_commit d d' \/ max_commit filt ts i d d' \/ min_commit filt ts i d d'.
Proof.
  unfold no_commit, max_commit, min_commit, detect_body.
  destruct (Nat.leb delta i); cbn zeta;
  if_cases; simpl in *; qbool;
  first [ left; solve_nc | right; left; solve_mc | right; right; solve_mc ].
Qed.

(** what [iter_commit] reports for each of the three outcomes *)
Lemma iter_commit_cases (it : iter) :
  let d := it_det it in
  let d' := it_after it in
  let i := it_i it in
  (iter_commit it = None /\ no_commit d d') \/
  (iter_commit it = Some (KMax, get (it_ts it) i, get (it_filt it) i) /\
   max_commit (it_filt it) (it_ts it) i d d') \/
  (iter_commit it = Some (KMin, get (it_ts it) i, get (it_filt it) i) /\
   min_commit (it_filt it) (it_ts it) i d d').
Proof.
  cbn zeta. unfold iter_commit.
  destruct (detect_body_cases (it_der it) (it_filt it) (it_ts it) (it_i it) (it_det it))
    as [H | [H | H]]; fold (it_after it) in H.
  - left. split; [|exact H].
    destruct H as (H1 & H2 & _). rewrite H1, H2, !Nat.ltb_irrefl. reflexivity.
  - right; left. split; [|exact H].
    destruct H as (_ & H1 & _ & H3 & H4 & _).
    rewrite H1, H3, H4.
    replace (Nat.ltb (count_max_det (it_det it)) (S (count_max_det (it_det it)))) with true
      by (symmetry; apply Nat.ltb_lt; lia).
    reflexivity.
  - right; right. split; [|exact H].
    destruct H as (_ & H1 & H2 & H3 & H4 & _).
    rewrite H1, H2, H3, H4, Nat.ltb_irrefl.
    replace (Nat.ltb (count_min_det (it_det it)) (S (count_min_det (it_det it)))) with true
      by (symmetry; apply Nat.ltb_lt; lia).
    reflexivity.
Qed.

(** ** Arrays, preprocessing and the input loop *)

Lemma length_set (a : list Q) (i : nat) (x : Q) : length (set a i x) = length a.
Proof.
  revert i. induction a as [|y a IH]; intros [|i]; simpl; auto.
Qed.

Lemma get_set_eq (a : list Q) (i : nat) (x : Q) :
  (i < length a)%nat -> get (set a i x) i = x.
Proof.
  unfold get. revert i. induction a as [|y a IH]; intros [|i] Hi; simpl in *;
    try lia; auto.
  apply IH. lia.
Qed.

Lemma get_set_neq (a : list Q) (i j : nat) (x : Q) :
  j <> i -> get (set a i x) j = get a j.
Proof.
  unfold get. revert i j. induction a as [|y a IH]; intros [|i] [|j] Hij;
    simpl; auto; try congruence.
Qed.

Lemma count_step (n c : nat) :
  Nat.modulo n 52 = c ->
  Nat.modulo (S n) 52 = (if Nat.eqb (S c) SAMP_BUFF_LEN then 0 else S c)%nat.
Proof.
  intros H.
  assert (Hc : (c < 52)%nat) by (rewrite <- H; apply Nat.mod_upper_bound; lia).
  replace (S n) with (n + 1)%nat by lia.
  rewrite Nat.Div0.add_mod, H.
  change SAMP_BUFF_LEN with 52%nat.
  destruct (Nat.eqb_spec (S c) 52) as [E|E].
  - replace (c + 1 mod 52)%nat with 52%nat by (simpl; lia). reflexivity.
  - rewrite Nat.mod_small; simpl; lia.
Qed.

(** destruct the pattern-matching [let]s of a goal *)
Ltac destr_lets :=
  repeat match goal with
  | |- context [match ?p with (_, _) => _ end] => destruct p
  end.

(** [step_algo_run] does not touch the frame buffers, the low-pass filter
    or the sample counter *)
Lemma step_algo_run_frame (st : state) :
  AccBuffY (step_algo_run st) = AccBuffY st /\
  AccBuffT (step_algo_run st) = AccBuffT st /\
  count (step_algo_run st) = count st /\
  lp_filter_y (step_algo_run st) = lp_filter_y st.
Proof.
  unfold step_algo_run. destr_lets. simpl. auto.
Qed.

Lemma run_samples_app (st : state) (xs ys : list sample) :
  run_samples st (xs ++ ys) = run_samples (run_samples st xs) ys.
Proof.
  revert st. induction xs as [|x xs IH]; intros st; simpl; auto.
Qed.

Lemma push_sample_preproc (st : state) (x : sample) :
  let p := step_algo_preproc st (s_timestamp x) (s_arx x) (s_ary x) (s_arz x)
                             (s_grx x) (s_gry x) (s_grz x) in
  push_sample st x = (fst p, if Nat.eqb (fst p) 1 then step_algo_run (snd p) else snd p).
Proof.
  unfold push_sample. cbn zeta. destruct (step_algo_preproc _ _ _ _ _ _ _ _) as [r s].
  simpl. destruct (Nat.eqb r 1); reflexivity.
Qed.

(** the preprocessing step, on any state *)
Lemma step_algo_preproc_fields (st : state) (t rx ry rz gx gy gz : Q) :
  let p := step_algo_preproc st t rx ry rz gx gy gz in
  let st' := snd p in
  lp_filter_y st' = snd (apply_filter (lp_filter_y st) ry) /\
  AccBuffY st' = set (AccBuffY st) (count st) (fst (apply_filter (lp_filter_y st) ry)) /\
  AccBuffT st' = set (AccBuffT st) (count st) t /\
  step_algo_output st' = step_algo_output st /\
  ll_filter_y st' = ll_filter_y st /\
  (if Nat.eqb (S (count st)) SAMP_BUFF_LEN
   then fst p = 1%nat /\ count st' = 0%nat
   else fst p = 0%nat /\ count st' = S (count st)).
Proof.
  unfold step_algo_preproc. destruct (apply_filter (lp_filter_y st) ry) as [y lp'].
  cbn zeta. destruct (Nat.eqb (S (count st)) SAMP_BUFF_LEN); simpl; auto 10.
Qed.

(** the reachable states: the sample counter and the buffer lengths *)
Lemma run_samples_count (xs : list sample) :
  let st := run_samples init_state xs in
  count st = Nat.modulo (length xs) 52 /\
  length (AccBuffY st) = SAMP_BUFF_LEN /\ length (AccBuffT st) = SAMP_BUFF_LEN.
Proof.
  induction xs as [|x xs IH] using rev_ind; cbn zeta in *.
  - split; [reflexivity|]. split; reflexivity.
  - rewrite run_samples_app. cbn [run_samples].
    rewrite push_sample_preproc. cbn zeta.
    set (st := run_samples init_state xs) in *.
    destruct (step_algo_preproc_fields st (s_timestamp x)
                (s_arx x) (s_ary x) (s_arz x) (s_grx x) (s_gry x) (s_grz x))
      as (_ & HY & HT & _ & _ & Hc).
    cbn zeta in *.
    destruct IH as (IHc & IHY & IHT).
    rewrite length_app, Nat.add_comm. cbn [length].
    pose proof (count_step _ _ (eq_sym IHc)) as Hs.
    set (p := step_algo_preproc _ _ _ _ _ _ _ _) in *.
    assert (Hf : forall s : state, count s = count (snd p) -> AccBuffY s = AccBuffY (snd p) ->
              AccBuffT s = AccBuffT (snd p) ->
              count s = Nat.modulo (S (length xs)) 52 /\
              length (AccBuffY s) = SAMP_BUFF_LEN /\ length (AccBuffT s) = SAMP_BUFF_LEN).
    { intros s E1 E2 E3. rewrite E1, E2, E3, HY, HT, !length_set, Hs.
      destruct (Nat.eqb (S (count st)) SAMP_BUFF_LEN); destruct Hc as [_ Hc];
        rewrite Hc; auto. }
    destruct (Nat.eqb (fst p) 1).
    + destruct (step_algo_run_frame (snd p)) as (E2 & E3 & E1 & _). apply Hf; assumption.
    + apply Hf; reflexivity.
Qed.

(** ** Claims *)

(** C7: for every filter state and input [x], [apply_filter] returns
    [y = b0*x + b1*x_prev + b2*x_prev_prev - a1*y_prev - a2*y_prev_prev],
    shifts the input and output histories, and leaves the coefficients and
    [TC_samples] unchanged. *)
Theorem apply_filter_spec (f : filter_t) (x : Q) :
  let y := fst (apply_filter f x) in
  let f' := snd (apply_filter f x) in
  y == b0 f * x + b1 f * prev_in f + b2 f * prev_prev_in f
       - a1 f * prev_out f - a2 f * prev_prev_out f /\
  prev_prev_in f' = prev_in f /\ prev_in f' = x /\
  prev_prev_out f' = prev_out f /\ prev_out f' = y /\
  b0 f' = b0 f /\ b1 f' = b1 f /\ b2 f' = b2 f /\ a1 f' = a1 f /\ a2 f' = a2 f /\
  TC_samples f' = TC_samples f.
Proof.
  cbn zeta. unfold apply_filter. cbn [fst snd b0 b1 b2 a1 a2 prev_in prev_prev_in prev_out prev_prev_out TC_samples].
  repeat split.
  rewrite !qsub_eq, !qadd_eq, !qmul_eq. reflexivity.
Qed.

(** a sample acts on the state through its timestamp and [ary] only *)
Lemma push_sample_core (st : state) (x y : sample) :
  s_timestamp x = s_timestamp y -> s_ary x = s_ary y ->
  push_sample st x = push_sample st y.
Proof.
  intros Ht Hy. unfold push_sample, step_algo_preproc. rewrite Ht, Hy. reflexivity.
Qed.

(** C9: two input sequences that agree in timestamp and [ary] at every
    sample, whatever their other channels, give the same outputs at every
    sample: run flag, step count, motion type and per-class counters. *)
Theorem outputs_ignore_unused (st : state) (xs ys : list sample)
    (Hts : map s_timestamp xs = map s_timestamp ys)
    (Hary : map s_ary xs = map s_ary ys) :
  outputs st xs = outputs st ys.
Proof.
  revert st ys Hts Hary. induction xs as [|x xs IH]; intros st [|y ys] Hts Hary;
    simpl in Hts, Hary; try discriminate.
  - reflexivity.
  - injection Hts as Ht Hts. injection Hary as Hy Hary.
    cbn [outputs]. rewrite (push_sample_core st x y Ht Hy).
    destruct (push_sample st y) as [r st']. f_equal. apply IH; assumption.
Qed.

Lemma outputs_ignore_unused_witness :
  let ys := map (fun x => mk_sample (s_timestamp x) 3 (s_ary x) (-4) 5 6 (-7)) xs_rest in
  map s_timestamp xs_rest = map s_timestamp ys /\
  map s_ary xs_rest = map s_ary ys /\
  outputs init_state xs_rest = outputs init_state ys.
Proof.
  cbn zeta. split; [reflexivity|]. split; [reflexivity|].
  apply outputs_ignore_unused; reflexivity.
Defined.

(** C6: on the state reached after any inputs, preprocessing a sample
    applies the low-pass filter to [ary], stores the filtered value and the
    timestamp at index [count] of the frame buffer (and nothing else),
    increments [count], and returns 1 with [count] reset to 0 exactly when
    [count] reaches [SAMP_BUFF_LEN] = 52, i.e. on every 52nd sample, 0
    otherwise; the input loop calls [step_algo_run] exactly when it
    returns 1. *)
Theorem step_algo_preproc_spec (xs : list sample) (x : sample) :
  let st := run_samples init_state xs in
  let p := step_algo_preproc st (s_timestamp x) (s_arx x) (s_ary x) (s_arz x)
                             (s_grx x) (s_gry x) (s_grz x) in
  let st' := snd p in
  let y := fst (apply_filter (lp_filter_y st) (s_ary x)) in
  SAMP_BUFF_LEN = 52%nat /\
  count st = Nat.modulo (length xs) 52 /\
  lp_filter_y st' = snd (apply_filter (lp_filter_y st) (s_ary x)) /\
  get (AccBuffY st') (count st) = y /\
  get (AccBuffT st') (count st) = s_timestamp x /\
  (forall j, j <> count st ->
     get (AccBuffY st') j = get (AccBuffY st) j /\
     get (AccBuffT st') j = get (AccBuffT st) j) /\
  (if Nat.eqb (S (count st)) SAMP_BUFF_LEN
   then fst p = 1%nat /\ count st' = 0%nat
   else fst p = 0%nat /\ count st' = S (count st)) /\
  (fst p = 1%nat <-> Nat.modulo (S (length xs)) 52 = 0%nat) /\
  push_sample st x = (fst p, if Nat.eqb (fst p) 1 then step_algo_run st' else st').
Proof.
  cbn zeta.
  set (st := run_samples init_state xs).
  destruct (run_samples_count xs) as (Hc & HY & HT). fold st in Hc, HY, HT.
  pose proof (count_step _ _ (eq_sym Hc)) as Hs.
  assert (Hlt : (count st < 52)%nat) by (rewrite Hc; apply Nat.mod_upper_bound; lia).
  destruct (step_algo_preproc_fields st (s_timestamp x) (s_arx x) (s_ary x) (s_arz x)
              (s_grx x) (s_gry x) (s_grz x)) as (Hlp & HY' & HT' & _ & _ & Hr).
  cbn zeta in *.
  set (p := step_algo_preproc _ _ _ _ _ _ _ _) in *.
  split; [reflexivity|]. split; [exact Hc|]. split; [exact Hlp|].
  rewrite HY', HT'.
  split; [apply get_set_eq; rewrite HY; exact Hlt|].
  split; [apply get_set_eq; rewrite HT; exact Hlt|].
  split; [intros j Hj; split; apply get_set_neq; exact Hj|].
  split; [exact Hr|].
  split; [|apply push_sample_preproc].
  rewrite Hs. destruct (Nat.eqb (S (count st)) SAMP_BUFF_LEN); destruct Hr as [Hr _];
    rewrite Hr; split; intro E; congruence.
Qed.

Lemma loop_trace_in (der filt ts : list Q) (n : nat) :
  forall i d it, In it (loop_trace der filt ts i n d) ->
  it_der it = der /\ it_filt it = filt /\ it_ts it = ts /\
  (i <= it_i it < i + n)%nat.
Proof.
  induction n as [|n IH]; intros i d it Hin; simpl in Hin; [contradiction|].
  destruct Hin as [<- | Hin].
  - simpl. repeat split; auto; lia.
  - destruct (IH _ _ _ Hin) as (? & ? & ? & ?). repeat split; auto; lia.
Qed.

(** the first loop: the filter keeps its [TC_samples], the arrays their
    lengths, and [filt], [ts] receive the frame at offset [TC] *)
Lemma der_loop_gen (TC : nat) (bufY bufT : list Q) (n : nat) :
  forall i ll der filt ts,
  (TC + i + n <= length filt)%nat -> (TC + i + n <= length ts)%nat ->
  let '(ll', der', filt', ts') := for_loop (der_body TC bufY bufT) i n (ll, der, filt, ts) in
  TC_samples ll' = TC_samples ll /\
  length der' = length der /\ length filt' = length filt /\ length ts' = length ts /\
  (forall m, get filt' m =
     if Nat.leb (TC + i) m && Nat.ltb m (TC + i + n) then get bufY (m - TC) else get filt m) /\
  (forall m, get ts' m =
     if Nat.leb (TC + i) m && Nat.ltb m (TC + i + n) then get bufT (m - TC) else get ts m).
Proof.
  induction n as [|n IH]; intros i ll der filt ts Hf Ht.
  - simpl. repeat split; auto; intros m;
      replace (Nat.leb (TC + i) m && Nat.ltb m (TC + i + 0))%bool with false; auto;
      destruct (Nat.leb_spec (TC + i) m), (Nat.ltb_spec m (TC + i + 0)); simpl; lia.
  - rewrite for_loop_S. unfold der_body at 2.
    destruct (apply_filter ll (get bufY i)) as [dv ll1] eqn:Ea.
    specialize (IH (S i) ll1 (set der i dv) (set filt (TC + i) (get bufY i))
                  (set ts (TC + i) (get bufT i))).
    rewrite !length_set in IH.
    specialize (IH ltac:(lia) ltac:(lia)).
    destruct (for_loop _ _ _ _) as [[[ll' der'] filt'] ts'].
    destruct IH as (H1 & H2 & H3 & H4 & H5 & H6).
    assert (Htc : TC_samples ll1 = TC_samples ll)
      by (unfold apply_filter in Ea; injection Ea as _ <-; reflexivity).
    repeat split; try congruence.
    + intros m. rewrite H5.
      destruct (Nat.eq_dec m (TC + i)) as [->|Hm].
      * rewrite get_set_eq by lia.
        replace (Nat.leb (TC + S i) (TC + i)) with false by (symmetry; apply Nat.leb_gt; lia).
        replace (Nat.leb (TC + i) (TC + i) && Nat.ltb (TC + i) (TC + i + S n))%bool with true
          by (symmetry; apply andb_true_iff; split; [apply Nat.leb_le | apply Nat.ltb_lt]; lia).
        simpl. f_equal. lia.
      * rewrite get_set_neq by exact Hm.
        destruct (Nat.leb_spec (TC + S i) m), (Nat.ltb_spec m (TC + S i + n)),
                 (Nat.leb_spec (TC + i) m), (Nat.ltb_spec m (TC + i + S n));
          simpl; auto; lia.
    + intros m. rewrite H6.
      destruct (Nat.eq_dec m (TC + i)) as [->|Hm].
      * rewrite get_set_eq by lia.
        replace (Nat.leb (TC + S i) (TC + i)) with false by (symmetry; apply Nat.leb_gt; lia).
        replace (Nat.leb (TC + i) (TC + i) && Nat.ltb (TC + i) (TC + i + S n))%bool with true
          by (symmetry; apply andb_true_iff; split; [apply Nat.leb_le | apply Nat.ltb_lt]; lia).
        simpl. f_equal. lia.
      * rewrite get_set_neq by exact Hm.
        destruct (Nat.leb_spec (TC + S i) m), (Nat.ltb_spec m (TC + S i + n)),
                 (Nat.leb_spec (TC + i) m), (Nat.ltb_spec m (TC + i + S n));
          simpl; auto; lia.
Qed.

(** the tail loop keeps the lengths *)
Lemma tail_loop_len (TC : nat) (bufY bufT : list Q) (n : nat) :
  forall i filt ts,
  let '(filt', ts') := for_loop (tail_body TC bufY bufT) i n (filt, ts) in
  length filt' = length filt /\ length ts' = length ts.
Proof.
  induction n as [|n IH]; intros i filt ts; simpl; auto.
  specialize (IH (S i) (set filt i (get bufY (SAMP_BUFF_LEN - TC + i)))
                 (set ts i (get bufT (SAMP_BUFF_LEN - TC + i)))).
  destruct (for_loop _ _ _ _) as [filt' ts']. rewrite !length_set in IH. exact IH.
Qed.

Lemma der_loop_layout (st : state) :
  let TC := TC_samples (ll_filter_y st) in
  (TC + SAMP_BUFF_LEN <= length (AccFilt st))%nat ->
  (TC + SAMP_BUFF_LEN <= length (TimeStamps st))%nat ->
  let '(ll', der, filt, ts) := der_loop st in
  TC_samples ll' = TC /\
  length filt = length (AccFilt st) /\ length ts = length (TimeStamps st) /\
  (forall j, (j < SAMP_BUFF_LEN)%nat ->
     get filt (TC + j) = get (AccBuffY st) j /\ get ts (TC + j) = get (AccBuffT st) j).
Proof.
  cbn zeta. intros Hf Ht. unfold der_loop.
  pose proof (der_loop_gen (TC_samples (ll_filter_y st)) (AccBuffY st) (AccBuffT st)
                SAMP_BUFF_LEN 0 (ll_filter_y st) (AccDer st) (AccFilt st) (TimeStamps st))
    as G.
  rewrite Nat.add_0_r in G. specialize (G Hf Ht).
  destruct (for_loop _ _ _ _) as [[[ll' der] filt] ts].
  destruct G as (G1 & _ & G3 & G4 & G5 & G6).
  split; [exact G1|]. split; [exact G3|]. split; [exact G4|].
  intros j Hj. set (TC := TC_samples (ll_filter_y st)) in *.
  rewrite G5, G6.
  destruct (Nat.leb_spec TC (TC + j)); [|lia].
  destruct (Nat.ltb_spec (TC + j) (TC + SAMP_BUFF_LEN)); [|lia].
  simpl. replace (TC + j - TC)%nat with j by lia. split; reflexivity.
Qed.

(** [step_algo_run] keeps the lengths of the extended arrays and the
    lead-lag filter's [TC_samples] *)
Lemma step_algo_run_arrays (st : state) :
  let TC := TC_samples (ll_filter_y st) in
  (TC + SAMP_BUFF_LEN <= length (AccFilt st))%nat ->
  (TC + SAMP_BUFF_LEN <= length (TimeStamps st))%nat ->
  length (AccFilt (step_algo_run st)) = length (AccFilt st) /\
  length (TimeStamps (step_algo_run st)) = length (TimeStamps st) /\
  TC_samples (ll_filter_y (step_algo_run st)) = TC.
Proof.
  cbn zeta. intros Hf Ht.
  pose proof (der_loop_layout st Hf Ht) as G.
  unfold step_algo_run.
  destruct (der_loop st) as [[[ll' der] filt] ts].
  destruct G as (G1 & G2 & G3 & _).
  pose proof (tail_loop_len (TC_samples (ll_filter_y st)) (AccBuffY st) (AccBuffT st)
                (TC_samples (ll_filter_y st)) 0 filt ts) as L.
  destruct (for_loop (tail_body _ _ _) 0 _ (filt, ts)) as [filt' ts'].
  destruct L as [L1 L2].
  destr_lets. cbn [AccFilt TimeStamps ll_filter_y]. repeat split; congruence.
Qed.

(** the reachable states: extended arrays of 72 entries, [TC_samples] 7 *)
Lemma run_samples_arrays (xs : list sample) :
  let st := run_samples init_state xs in
  length (AccFilt st) = (SAMP_BUFF_LEN + MAX_TC_SAMPLES)%nat /\
  length (TimeStamps st) = (SAMP_BUFF_LEN + MAX_TC_SAMPLES)%nat /\
  TC_samples (ll_filter_y st) = 7%nat.
Proof.
  induction xs as [|x xs IH] using rev_ind; cbn zeta in *.
  - split; [reflexivity|]. split; reflexivity.
  - rewrite run_samples_app. cbn [run_samples].
    rewrite push_sample_preproc. cbn zeta.
    set (st := run_samples init_state xs) in *.
    set (p := step_algo_preproc _ _ _ _ _ _ _ _).
    assert (Hp : AccFilt (snd p) = AccFilt st /\ TimeStamps (snd p) = TimeStamps st /\
                 ll_filter_y (snd p) = ll_filter_y st).
    { subst p. unfold step_algo_preproc.
      destruct (apply_filter _ _). cbn zeta.
      destruct (Nat.eqb _ _); repeat split; reflexivity. }
    destruct Hp as (E1 & E2 & E3). destruct IH as (I1 & I2 & I3).
    destruct (Nat.eqb (fst p) 1).
    + assert (B : (7 + SAMP_BUFF_LEN <= SAMP_BUFF_LEN + MAX_TC_SAMPLES)%nat)
        by (apply Nat.leb_le; reflexivity).
      destruct (step_algo_run_arrays (snd p)) as (A1 & A2 & A3);
        [rewrite E1, E3, I1, I3; exact B | rewrite E2, E3, I2, I3; exact B |].
      cbn [snd]. rewrite A1, A2, A3, E1, E2, E3. auto.
    + cbn [snd]. rewrite E1, E2, E3. auto.
Qed.

(** preprocessing touches neither the extended arrays nor the filters of
    [step_algo_run] *)
Lemma step_algo_preproc_keeps (st : state) (t rx ry rz gx gy gz : Q) :
  let st' := snd (step_algo_preproc st t rx ry rz gx gy gz) in
  AccFilt st' = AccFilt st /\ TimeStamps st' = TimeStamps st /\
  ll_filter_y st' = ll_filter_y st /\ AccDer st' = AccDer st /\
  prevAccDer st' = prevAccDer st /\ step_algo_output st' = step_algo_output st /\
  num_steps_walk st' = num_steps_walk st /\ num_steps_run st' = num_steps_run st /\
  num_steps_hop st' = num_steps_hop st.
Proof.
  unfold step_algo_preproc. destruct (apply_filter _ _). cbn zeta.
  destruct (Nat.eqb _ _); repeat split; reflexivity.
Qed.

Lemma batch_trace_def (st : state) ll der filt ts :
  der_loop st = (ll, der, filt, ts) ->
  batch_trace st =
  loop_trace der filt ts 0 SAMP_BUFF_LEN (det_init (step_algo_output st) (prevAccDer st)).
Proof.
  intro E. unfold batch_trace. rewrite E. reflexivity.
Qed.

Lemma batch_det_def (st : state) ll der filt ts :
  der_loop st = (ll, der, filt, ts) ->
  batch_det st =
  for_loop (detect_body der filt ts) 0 SAMP_BUFF_LEN
           (det_init (step_algo_output st) (prevAccDer st)).
Proof.
  intro E. unfold batch_det. rewrite E. reflexivity.
Qed.

(** the iterations of a batch read the extended arrays, which hold the
    frame at offset [TC] *)
Lemma batch_trace_layout (st : state) :
  let TC := TC_samples (ll_filter_y st) in
  (TC + SAMP_BUFF_LEN <= length (AccFilt st))%nat ->
  (TC + SAMP_BUFF_LEN <= length (TimeStamps st))%nat ->
  forall it, In it (batch_trace st) -> forall j, (j < SAMP_BUFF_LEN)%nat ->
    get (it_filt it) (TC + j) = get (AccBuffY st) j /\
    get (it_ts it) (TC + j) = get (AccBuffT st) j.
Proof.
  cbn zeta. intros Hf Ht it Hin j Hj.
  pose proof (der_loop_layout st Hf Ht) as L.
  destruct (der_loop st) as [[[ll' der] filt] ts] eqn:E.
  rewrite (batch_trace_def _ _ _ _ _ E) in Hin.
  destruct L as (_ & _ & _ & L).
  destruct (loop_trace_in _ _ _ _ _ _ _ Hin) as (_ & E1 & E2 & _).
  rewrite E1, E2. exact (L j Hj).
Qed.

(** C1 (amended): a commit of loop index [i] takes its value and
    timestamp at index [i] of the extended arrays, [AccFilt[i]] and
    [TimeStamps[i]]; in every batch the extended arrays hold the frame at
    offset [K = TC_samples = 7], so [AccFilt[K + j]] is frame sample [j] and
    the candidate at index [i >= K] is frame sample [i - K]. *)
Theorem commit_index :
  (forall it k t v, iter_commit it = Some (k, t, v) ->
     t = get (it_ts it) (it_i it) /\ v = get (it_filt it) (it_i it)) /\
  (forall xs x,
     let st := snd (step_algo_preproc (run_samples init_state xs) (s_timestamp x)
                      (s_arx x) (s_ary x) (s_arz x) (s_grx x) (s_gry x) (s_grz x)) in
     let K := TC_samples (ll_filter_y st) in
     K = 7%nat /\
     forall it, In it (batch_trace st) -> forall j, (j < SAMP_BUFF_LEN)%nat ->
       get (it_filt it) (K + j) = get (AccBuffY st) j /\
       get (it_ts it) (K + j) = get (AccBuffT st) j).
Proof.
  split.
  - intros it k t v H.
    destruct (iter_commit_cases it) as [(E & _) | [(E & _) | (E & _)]];
      rewrite E in H; try discriminate; injection H as <- <- <-; split; reflexivity.
  - intros xs x. cbn zeta.
    set (st0 := run_samples init_state xs).
    set (st := snd (step_algo_preproc st0 _ _ _ _ _ _ _)).
    destruct (run_samples_arrays xs) as (A1 & A2 & A3). fold st0 in A1, A2, A3.
    destruct (step_algo_preproc_keeps st0 (s_timestamp x) (s_arx x) (s_ary x) (s_arz x)
                (s_grx x) (s_gry x) (s_grz x)) as (E1 & E2 & E3 & _).
    fold st in E1, E2, E3.
    assert (B : (7 + SAMP_BUFF_LEN <= SAMP_BUFF_LEN + MAX_TC_SAMPLES)%nat)
      by (apply Nat.leb_le; reflexivity).
    rewrite E3, A3. split; [reflexivity|].
    pose proof (batch_trace_layout st) as L. cbn zeta in L.
    rewrite E1, E2, E3, A1, A2, A3 in L. exact (L B B).
Qed.

(** C1 (counterexample): on [xs1] the maximum committed at loop index [i]
    is not [AccFilt[K + i]] with [K = TC_samples = 7]. *)
Lemma commit_index_ext_counterexample :
  ~ (forall xs it, In it (run_trace init_state xs) ->
     forall k t v, iter_commit it = Some (k, t, v) ->
       v == get (it_filt it) (TC_samples ll_filter_init + it_i it) /\
       t == get (it_ts it) (TC_samples ll_filter_init + it_i it)).
Proof.
  intro H.
  assert (E : forallb (commit_at (TC_samples ll_filter_init)) (run_trace init_state xs1) = false)
    by (vm_compute; reflexivity).
  rewrite <- Bool.not_true_iff_false in E. apply E.
  apply forallb_forall. intros it Hin. unfold commit_at.
  destruct (iter_commit it) as [[[k t] v]|] eqn:Ec; [|reflexivity].
  destruct (H xs1 it Hin k t v Ec) as [H1 H2].
  apply Qeq_bool_iff in H1. apply Qeq_bool_iff in H2. rewrite H1, H2. reflexivity.
Qed.

(** ** The step counters *)

(** a relation kept by every iteration holds across the loop *)
Lemma for_loop_rel {A : Type} (R : A -> A -> Prop) (body : nat -> A -> A) :
  (forall a, R a a) -> (forall a b c, R a b -> R b c -> R a c) ->
  (forall i a, R a (body i a)) ->
  forall n i a, R a (for_loop body i n a).
Proof.
  intros Hr Ht Hb n. induction n as [|n IH]; intros i a; simpl; auto.
  apply Ht with (body i a); auto.
Qed.

Lemma inject_nat_succ (n : nat) :
  inject_Z (Z.of_nat (S n)) == inject_Z (Z.of_nat n) + 1.
Proof. rewrite Nat2Z.inj_succ, <- Z.add_1_r, inject_Z_plus. reflexivity. Qed.

Lemma inject_nat_nonneg (n : nat) : 0 <= inject_Z (Z.of_nat n).
Proof. change 0 with (inject_Z 0). rewrite <- Zle_Qle. lia. Qed.

(** one iteration adds to [avg_time_period] between [NO_DETECT_DUR_SEC] and
    [MAX_TIME_PERIOD_SEC] per commit *)
Lemma detect_body_avg (der filt ts : list Q) (i : nat) (d : det) :
  let d' := detect_body der filt ts i d in
  let N x := inject_Z (Z.of_nat (count_max_det x + count_min_det x)) in
  (count_max_det d <= count_max_det d')%nat /\ (count_min_det d <= count_min_det d')%nat /\
  NO_DETECT_DUR_SEC * (N d' - N d) <= avg_time_period d' - avg_time_period d /\
  avg_time_period d' - avg_time_period d <= MAX_TIME_PERIOD_SEC * (N d' - N d).
Proof.
  cbn zeta.
  destruct (detect_body_cases der filt ts i d) as [H | [H | H]];
    set (d' := detect_body der filt ts i d) in *.
  - destruct H as (H1 & H2 & _ & _ & H5 & _).
    rewrite H1, H2, H5. qconst. repeat split; try lia; lra.
  - destruct H as (_ & H1 & H2 & _ & _ & _ & _ & _ & _ & _ & _ & t & Ht1 & Ht2 & Ht3).
    rewrite H1, H2, Ht3, Nat.add_succ_l, inject_nat_succ.
    qconst. repeat split; try lia; lra.
  - destruct H as (_ & H1 & H2 & _ & _ & _ & _ & _ & _ & _ & t & Ht1 & Ht2 & Ht3).
    rewrite H1, H2, Ht3, Nat.add_succ_r, inject_nat_succ.
    qconst. repeat split; try lia; lra.
Qed.

(** after the detection loop, [avg_time_period] lies between
    [NO_DETECT_DUR_SEC] and [MAX_TIME_PERIOD_SEC] times the number of commits *)
Lemma batch_det_avg (st : state) :
  let d := batch_det st in
  let N := inject_Z (Z.of_nat (count_max_det d + count_min_det d)) in
  NO_DETECT_DUR_SEC * N <= avg_time_period d /\ avg_time_period d <= MAX_TIME_PERIOD_SEC * N.
Proof.
  cbn zeta.
  destruct (der_loop st) as [[[ll' der] filt] ts] eqn:E.
  rewrite (batch_det_def _ _ _ _ _ E).
  set (R := fun x y : det =>
    let N z := inject_Z (Z.of_nat (count_max_det z + count_min_det z)) in
    (count_max_det x <= count_max_det y)%nat /\ (count_min_det x <= count_min_det y)%nat /\
    NO_DETECT_DUR_SEC * (N y - N x) <= avg_time_period y - avg_time_period x /\
    avg_time_period y - avg_time_period x <= MAX_TIME_PERIOD_SEC * (N y - N x)).
  assert (HR : R (det_init (step_algo_output st) (prevAccDer st))
                 (for_loop (detect_body der filt ts) 0 SAMP_BUFF_LEN
                           (det_init (step_algo_output st) (prevAccDer st)))).
  { apply for_loop_rel.
    - intros a. unfold R. cbn zeta. repeat split; try lia; lra.
    - intros a b c. unfold R. cbn zeta. intros (H1 & H2 & H3 & H4) (H5 & H6 & H7 & H8).
      repeat split; try lia; lra.
    - intros i a. apply detect_body_avg. }
  destruct HR as (_ & _ & H1 & H2).
  revert H1 H2.
  set (d := for_loop _ _ _ _). cbn [det_init count_max_det count_min_det avg_time_period].
  change (inject_Z (Z.of_nat (0 + 0))) with 0. intros H1 H2. split; lra.
Qed.

(** the fields of [step_algo_run]'s result that the claims are about *)
Lemma step_algo_run_out (st : state) :
  let d := batch_det st in
  let amp := fst (amp_update d (prev_amp_est st) (amp_est_hold st)) in
  let freq := fst (freq_update (period_update d) (prev_freq_est st) (freq_est_hold st)) in
  let c := classify amp freq (count_min_det d)
             (num_steps_walk st) (num_steps_run st) (num_steps_hop st) in
  let o' := step_algo_output (step_algo_run st) in
  step_count o' = u32 (step_count (step_algo_output st) + Z.of_nat (count_min_det d)) /\
  step_type o' = fst (fst (fst c)) /\
  prev_max o' = prev_max_val d /\ prev_min o' = prev_min_val d /\
  prev_max_ts o' = d_prev_max_ts d /\ prev_min_ts o' = d_prev_min_ts d /\
  num_steps_walk (step_algo_run st) = snd (fst (fst c)) /\
  num_steps_run (step_algo_run st) = snd (fst c) /\
  num_steps_hop (step_algo_run st) = snd c.
Proof.
  cbn zeta. unfold step_algo_run.
  destruct (der_loop st) as [[[ll' der] filt] ts].
  destruct (amp_update _ _ _) as [amp ah].
  destruct (freq_update _ _ _) as [freq fh].
  destruct (for_loop (tail_body _ _ _) _ _ _) as [filt' ts'].
  cbn [fst].
  destruct (classify _ _ _ _ _ _) as [[[ty w] r] h].
  repeat split.
Qed.

(** a batch with a confirmed minimum has frequency estimate above
    [SLOW_FREQ] *)
Lemma freq_not_slow (d : det) (pf : Q) (h : nat) :
  (0 < count_min_det d)%nat ->
  NO_DETECT_DUR_SEC * inject_Z (Z.of_nat (count_max_det d + count_min_det d))
    <= avg_time_period d ->
  avg_time_period d
    <= MAX_TIME_PERIOD_SEC * inject_Z (Z.of_nat (count_max_det d + count_min_det d)) ->
  SLOW_FREQ < fst (freq_update (period_update d) pf h).
Proof.
  intros Hc H1 H2.
  set (N := inject_Z (Z.of_nat (count_max_det d + count_min_det d))) in *.
  assert (HN : 1 <= N).
  { subst N. change 1 with (inject_Z 1). rewrite <- Zle_Qle. lia. }
  unfold period_update.
  replace (Nat.ltb 0 (count_max_det d + count_min_det d)) with true
    by (symmetry; apply Nat.ltb_lt; lia).
  fold N.
  assert (P1 : NO_DETECT_DUR_SEC <= qdiv (avg_time_period d) N).
  { rewrite qdiv_eq. apply Qle_shift_div_l; lra. }
  assert (P2 : qdiv (avg_time_period d) N <= MAX_TIME_PERIOD_SEC).
  { rewrite qdiv_eq. apply Qle_shift_div_r; lra. }
  set (p := qdiv (avg_time_period d) N) in *.
  qconst.
  unfold freq_update.
  assert (Heps : EPSILON < 0.2) by (unfold EPSILON, Qlt; simpl; lia).
  replace (qltb EPSILON p) with true
    by (symmetry; apply qltb_true; apply Qlt_le_trans with 0.2; assumption).
  change (Nat.ltb BUFF_FACTOR 0) with false. cbn [fst].
  rewrite qdiv_eq. unfold SLOW_FREQ.
  apply Qlt_shift_div_l; lra.
Qed.

Lemma u32_add_l (a b : Z) : u32 (u32 a + b) = u32 (a + b).
Proof. unfold u32. apply Z.add_mod_idemp_l. unfold UINT_MOD. lia. Qed.

(** [classify] returns [STATIC] only with the counters unchanged; otherwise
    it adds the count to exactly one counter *)
Lemma classify_counters (amp freq : Q) (cmin : nat) (walk run hop : Z) :
  let '(ty, walk', run', hop') := classify amp freq cmin walk run hop in
  (ty = STATIC /\ freq <= SLOW_FREQ /\ walk' = walk /\ run' = run /\ hop' = hop) \/
  (ty <> STATIC /\
   u32 (walk' + run' + hop') = u32 (walk + run + hop + Z.of_nat cmin)).
Proof.
  unfold classify.
  destruct (qleb amp SMALL_AMP); [destruct (qleb freq SLOW_FREQ) eqn:E|];
    [left; apply qleb_true in E; auto| |destruct (qleb LARGE_AMP amp); destruct (qleb FAST_FREQ freq)];
    right; (split; [discriminate|]);
    match goal with
    | |- u32 ?S = _ =>
        match S with
        | context [u32 ?X] =>
            replace S with (u32 X + (S - u32 X))%Z by ring;
            rewrite u32_add_l; f_equal; ring
        end
    end.
Qed.

(** a batch classified [STATIC] has no confirmed minimum *)
Lemma static_no_steps (st : state) :
  step_type (step_algo_output (step_algo_run st)) = STATIC ->
  count_min_det (batch_det st) = 0%nat.
Proof.
  destruct (step_algo_run_out st) as (_ & Eo & _). rewrite Eo.
  pose proof (classify_counters
    (fst (amp_update (batch_det st) (prev_amp_est st) (amp_est_hold st)))
    (fst (freq_update (period_update (batch_det st)) (prev_freq_est st) (freq_est_hold st)))
    (count_min_det (batch_det st)) (num_steps_walk st) (num_steps_run st) (num_steps_hop st))
    as Hc.
  destruct (classify _ _ _ _ _ _) as [[[ty w] r] h].
  intros E. cbn [fst] in E. subst ty.
  destruct Hc as [(_ & Hf & _) | (Hne & _)]; [|congruence].
  destruct (Nat.eq_dec (count_min_det (batch_det st)) 0) as [E|E]; [exact E|].
  exfalso.
  destruct (batch_det_avg st) as [H1 H2].
  pose proof (freq_not_slow (batch_det st) (prev_freq_est st) (freq_est_hold st)
                ltac:(lia) H1 H2).
  lra.
Qed.

(** one call of [step_algo_run] keeps [step_count = walk + run + hop]
    (unsigned) *)
Lemma step_algo_run_sum (st : state) :
  step_count (step_algo_output st) = u32 (num_steps_walk st + num_steps_run st + num_steps_hop st) ->
  step_count (step_algo_output (step_algo_run st)) =
  u32 (num_steps_walk (step_algo_run st) + num_steps_run (step_algo_run st) +
       num_steps_hop (step_algo_run st)).
Proof.
  intros Hs.
  pose proof (static_no_steps st) as Hst.
  destruct (step_algo_run_out st) as (Ec & Et & _ & _ & _ & _ & Ew & Er & Eh).
  rewrite Et in Hst. rewrite Ec, Ew, Er, Eh, Hs, u32_add_l.
  pose proof (classify_counters
    (fst (amp_update (batch_det st) (prev_amp_est st) (amp_est_hold st)))
    (fst (freq_update (period_update (batch_det st)) (prev_freq_est st) (freq_est_hold st)))
    (count_min_det (batch_det st)) (num_steps_walk st) (num_steps_run st) (num_steps_hop st))
    as Hc.
  destruct (classify _ _ _ _ _ _) as [[[ty w] r] h].
  destruct Hc as [(E & _ & -> & -> & ->) | (_ & E)].
  - cbn [fst snd] in *. rewrite (Hst E). f_equal. lia.
  - cbn [fst snd] in *. rewrite E. reflexivity.
Qed.

Lemma step_count_sum_run (xs : list sample) :
  let st := run_samples init_state xs in
  step_count (step_algo_output st) =
  u32 (num_steps_walk st + num_steps_run st + num_steps_hop st).
Proof.
  induction xs as [|x xs IH] using rev_ind; cbn zeta in *.
  - reflexivity.
  - rewrite run_samples_app. cbn [run_samples].
    rewrite push_sample_preproc. cbn zeta.
    set (st := run_samples init_state xs) in *.
    destruct (step_algo_preproc_keeps st (s_timestamp x) (s_arx x) (s_ary x) (s_arz x)
                (s_grx x) (s_gry x) (s_grz x)) as (_ & _ & _ & _ & _ & E1 & E2 & E3 & E4).
    set (p := step_algo_preproc _ _ _ _ _ _ _ _) in *.
    assert (H : step_count (step_algo_output (snd p)) =
                u32 (num_steps_walk (snd p) + num_steps_run (snd p) + num_steps_hop (snd p)))
      by (rewrite E1, E2, E3, E4; exact IH).
    destruct (Nat.eqb (fst p) 1); cbn [snd].
    + apply step_algo_run_sum. exact H.
    + exact H.
Qed.

(** C2: starting from the initial state, after every sample the total
    [step_count] equals [num_steps_walk + num_steps_run + num_steps_hop] (as
    [unsigned int]s, i.e. modulo 2^32); and a batch that [step_algo_run]
    classifies [STATIC] confirms no minimum, so it adds nothing to the total. *)
Theorem step_count_sum :
  (forall xs : list sample,
     let st := run_samples init_state xs in
     step_count (step_algo_output st) =
     u32 (num_steps_walk st + num_steps_run st + num_steps_hop st)) /\
  (forall st : state,
     step_type (step_algo_output (step_algo_run st)) = STATIC ->
     count_min_det (batch_det st) = 0%nat).
Proof.
  split; [exact step_count_sum_run | exact static_no_steps].
Qed.

(** ** Amplitude gating *)

(** a minimum is confirmed only by an iteration whose swing exceeds
    [CLOSE_TO_ZERO] *)
Lemma min_commit_swing (it : iter) :
  (count_min_det (it_det it) < count_min_det (it_after it))%nat ->
  exists s, iter_min_swing it = Some s /\ CLOSE_TO_ZERO < s.
Proof.
  unfold it_after, iter_min_swing, detect_body.
  destruct it as [der filt ts i d0]. cbn [it_der it_filt it_ts it_i it_det].
  destruct (Nat.leb delta i); cbn zeta; if_cases; cbn in *; qbool;
    try lia; eexists; split; try reflexivity; assumption.
Qed.

Lemma detect_body_count_min (der filt ts : list Q) (i : nat) (d : det) :
  (count_min_det d <= count_min_det (detect_body der filt ts i d))%nat /\
  (count_max_det d <= count_max_det (detect_body der filt ts i d))%nat.
Proof.
  destruct (detect_body_cases der filt ts i d) as [H | [H | H]];
    destruct H as (H1 & H2 & H3 & _); lia.
Qed.

(** a batch whose examined swings are all small confirms no minimum *)
Lemma batch_small_swing (st : state) :
  forallb swing_small (batch_trace st) = true ->
  count_min_det (batch_det st) = 0%nat.
Proof.
  intros Hs.
  destruct (der_loop st) as [[[ll' der] filt] ts] eqn:E.
  rewrite (batch_trace_def _ _ _ _ _ E) in Hs.
  rewrite (batch_det_def _ _ _ _ _ E).
  rewrite forallb_forall in Hs.
  change 0%nat with (count_min_det (det_init (step_algo_output st) (prevAccDer st))).
  apply (detect_loop_trace der filt ts (fun x y => count_min_det y = count_min_det x));
    [reflexivity | intros; congruence |].
  intros it Hin.
  destruct (loop_trace_in _ _ _ _ _ _ _ Hin) as (E1 & E2 & E3 & _).
  specialize (Hs it Hin).
  pose proof (detect_body_count_min (it_der it) (it_filt it) (it_ts it) (it_i it) (it_det it))
    as [Hle _].
  fold (it_after it) in Hle.
  destruct (Nat.eq_dec (count_min_det (it_after it)) (count_min_det (it_det it))) as [Eq|Ne];
    [exact Eq|].
  destruct (min_commit_swing it ltac:(lia)) as (s & Es & Hlt).
  unfold swing_small in Hs. rewrite Es in Hs. apply qleb_true in Hs.
  exfalso. apply (Qlt_not_le _ _ Hlt Hs).
Qed.

Lemma run_trace_app (st : state) (xs ys : list sample) :
  run_trace st (xs ++ ys) = run_trace st xs ++ run_trace (run_samples st xs) ys.
Proof.
  revert st. induction xs as [|x xs IH]; intros st; [reflexivity|].
  cbn [app run_trace run_samples].
  destruct (step_algo_preproc _ _ _ _ _ _ _ _) as [r st1].
  rewrite IH, app_assoc. reflexivity.
Qed.

Lemma run_trace_one (st : state) (x : sample) :
  let p := step_algo_preproc st (s_timestamp x) (s_arx x) (s_ary x) (s_arz x)
                             (s_grx x) (s_gry x) (s_grz x) in
  run_trace st [x] = if Nat.eqb (fst p) 1 then batch_trace (snd p) else [].
Proof.
  cbn zeta. cbn [run_trace].
  destruct (step_algo_preproc _ _ _ _ _ _ _ _) as [r st1]. cbn [fst snd].
  rewrite app_nil_r. reflexivity.
Qed.

Lemma small_swing_steps (xs : list sample) :
  forallb swing_small (run_trace init_state xs) = true ->
  step_count (step_algo_output (run_samples init_state xs)) = 0%Z.
Proof.
  induction xs as [|x xs IH] using rev_ind; intros Hs.
  - reflexivity.
  - rewrite run_trace_app, forallb_app in Hs. apply andb_prop in Hs as [Hs1 Hs2].
    specialize (IH Hs1).
    rewrite run_samples_app. cbn [run_samples].
    rewrite push_sample_preproc. rewrite run_trace_one in Hs2. cbn zeta in *.
    set (st := run_samples init_state xs) in *.
    destruct (step_algo_preproc_keeps st (s_timestamp x) (s_arx x) (s_ary x) (s_arz x)
                (s_grx x) (s_gry x) (s_grz x)) as (_ & _ & _ & _ & _ & E1 & _).
    set (p := step_algo_preproc _ _ _ _ _ _ _ _) in *.
    destruct (Nat.eqb (fst p) 1); cbn [snd].
    + destruct (step_algo_run_out (snd p)) as (Ec & _).
      rewrite Ec, E1, IH, (batch_small_swing _ Hs2). reflexivity.
    + rewrite E1. exact IH.
Qed.

(** C4: a minimum is confirmed only when its swing [prev_max_val - new_min_val]
    exceeds [CLOSE_TO_ZERO]; hence if every swing the detector examines
    during a run from the initial state is at most [CLOSE_TO_ZERO],
    [step_count] stays 0 after every sample of the run. *)
Theorem small_swing_no_steps :
  (forall it : iter,
     (count_min_det (it_det it) < count_min_det (it_after it))%nat ->
     exists s, iter_min_swing it = Some s /\ CLOSE_TO_ZERO < s) /\
  (forall xs : list sample,
     forallb swing_small (run_trace init_state xs) = true ->
     forall n, step_count (step_algo_output (run_samples init_state (firstn n xs))) = 0%Z).
Proof.
  split; [exact min_commit_swing|].
  intros xs Hs n. apply small_swing_steps.
  rewrite <- (firstn_skipn n xs), run_trace_app, forallb_app in Hs.
  apply andb_prop in Hs as [Hs _]. exact Hs.
Qed.

(** ** Search mode *)

(** C3 (as the code has it): the detector is in max-search mode iff
    [prev_max_ts <= prev_min_ts]; a maximum is committed only in max-search
    mode and sets [prev_max_ts] to its timestamp, leaving [prev_min_ts]; a
    minimum is committed only in min-search mode ([prev_min_ts < prev_max_ts])
    and sets [prev_min_ts] to its timestamp, leaving [prev_max_ts]; an
    iteration without commit changes no commit data, but may move the
    timestamps forward (the [MAX_TIME_PERIOD_SEC] clamp). *)
Theorem commit_mode (it : iter) :
  let d := it_det it in
  let d' := it_after it in
  match iter_commit it with
  | Some (KMax, t, _) =>
      d_prev_max_ts d <= d_prev_min_ts d /\
      d_prev_max_ts d' = t /\ d_prev_min_ts d' = d_prev_min_ts d
  | Some (KMin, t, _) =>
      d_prev_min_ts d < d_prev_max_ts d /\
      d_prev_min_ts d' = t /\ d_prev_max_ts d' = d_prev_max_ts d
  | None => no_commit d d'
  end.
Proof.
  cbn zeta.
  destruct (iter_commit_cases it) as [(E & H) | [(E & H) | (E & H)]]; rewrite E.
  - exact H.
  - destruct H as (H1 & _ & _ & _ & H5 & _ & _ & H8 & _). auto.
  - destruct H as (H1 & _ & _ & _ & H5 & _ & _ & H8 & _). auto.
Qed.

(** C3: confirmed maxima and minima need not alternate: on input [xs3]
    (a pause of 2 s before sample 37) two maxima are committed in a row. *)
Lemma commits_alternate_counterexample :
  ~ (forall xs, alternates (run_commits init_state xs) = true).
Proof.
  intro H. specialize (H xs3). vm_compute in H. discriminate H.
Qed.

(** ** Dead-time gating *)

Lemma ForallOrdPairs_app {A : Type} (R : A -> A -> Prop) (l1 l2 : list A) :
  ForallOrdPairs R l1 -> ForallOrdPairs R l2 ->
  (forall x y, In x l1 -> In y l2 -> R x y) ->
  ForallOrdPairs R (l1 ++ l2).
Proof.
  induction l1 as [|a l1 IH]; intros H1 H2 Hx; [exact H2|].
  inversion H1 as [|? ? Ha Hl]; subst. cbn [app]. constructor.
  - apply Forall_app. split; [exact Ha|].
    apply Forall_forall. intros y Hy. apply Hx; [left; reflexivity | exact Hy].
  - apply IH; auto. intros x y Hxin Hy. apply Hx; [right; exact Hxin | exact Hy].
Qed.

Lemma seg_nil (m n : Q) : seg m n [] m n.
Proof.
  split; [constructor|]. split; [intros ? ? ? []|]. split; apply Qle_refl.
Qed.

Lemma seg_app (a b c d e f : Q) (L1 L2 : list (kind * Q * Q)) :
  seg a b L1 c d -> seg c d L2 e f -> seg a b (L1 ++ L2) e f.
Proof.
  intros (F1 & M1 & Hac & Hbd) (F2 & M2 & Hce & Hdf). split; [|split; [|split]].
  - apply ForallOrdPairs_app; auto.
    intros [[k1 t1] v1] [[k2 t2] v2] Hx Hy. specialize (M1 _ _ _ Hx). specialize (M2 _ _ _ Hy).
    unfold dead_time_sep. destruct k1, k2; cbn in *; intros []; lra.
  - intros k t v Hin. apply in_app_or in Hin as [Hin | Hin].
    + specialize (M1 _ _ _ Hin). destruct k; cbn in *; lra.
    + specialize (M2 _ _ _ Hin). destruct k; cbn in *; lra.
  - lra.
  - lra.
Qed.

Lemma seg_iter (it : iter) :
  seg (d_prev_max_ts (it_det it)) (d_prev_min_ts (it_det it))
      (match iter_commit it with Some c => [c] | None => [] end)
      (d_prev_max_ts (it_after it)) (d_prev_min_ts (it_after it)).
Proof.
  destruct (iter_commit_cases it) as [(E & H) | [(E & H) | (E & H)]]; rewrite E.
  - destruct H as (_ & _ & _ & _ & _ & _ & H7 & H8).
    split; [constructor|]. split; [intros ? ? ? []|]. auto.
  - destruct H as (_ & _ & _ & _ & H5 & H6 & _ & H8 & _).
    split; [repeat constructor|]. split; [|split; [|rewrite H8; apply Qle_refl]].
    + intros k t v [Eq | []]. injection Eq as <- <- <-. split; [exact H6 | rewrite H5; apply Qle_refl].
    + rewrite H5. unfold NO_DETECT_DUR_SEC in H6. lra.
  - destruct H as (_ & _ & _ & _ & H5 & H6 & _ & H8 & _).
    split; [repeat constructor|]. split; [|split; [rewrite H8; apply Qle_refl|]].
    + intros k t v [Eq | []]. injection Eq as <- <- <-. split; [exact H6 | rewrite H5; apply Qle_refl].
    + rewrite H5. unfold NO_DETECT_DUR_SEC in H6. lra.
Qed.

Lemma seg_loop (der filt ts : list Q) (n : nat) :
  forall i d,
  let d' := for_loop (detect_body der filt ts) i n d in
  seg (d_prev_max_ts d) (d_prev_min_ts d) (commits_of (loop_trace der filt ts i n d))
      (d_prev_max_ts d') (d_prev_min_ts d').
Proof.
  induction n as [|n IH]; intros i d; cbn zeta.
  - apply seg_nil.
  - rewrite for_loop_S. cbn [loop_trace commits_of flat_map].
    apply seg_app with (d_prev_max_ts (detect_body der filt ts i d))
                       (d_prev_min_ts (detect_body der filt ts i d)).
    + exact (seg_iter (mk_iter der filt ts i d)).
    + apply IH.
Qed.

Lemma seg_batch (st : state) :
  let o := step_algo_output st in
  let o' := step_algo_output (step_algo_run st) in
  seg (prev_max_ts o) (prev_min_ts o) (commits_of (batch_trace st))
      (prev_max_ts o') (prev_min_ts o').
Proof.
  cbn zeta.
  destruct (step_algo_run_out st) as (_ & _ & _ & _ & E5 & E6 & _). rewrite E5, E6.
  destruct (der_loop st) as [[[ll der] filt] ts] eqn:E.
  rewrite (batch_trace_def _ _ _ _ _ E), (batch_det_def _ _ _ _ _ E).
  exact (seg_loop der filt ts SAMP_BUFF_LEN 0 (det_init (step_algo_output st) (prevAccDer st))).
Qed.

Lemma run_commits_cons (st : state) (x : sample) (xs : list sample) :
  run_commits st (x :: xs) =
  commits_of (run_trace st [x]) ++ run_commits (run_samples st [x]) xs.
Proof.
  unfold run_commits, commits_of. rewrite <- flat_map_app.
  f_equal. exact (run_trace_app st [x] xs).
Qed.

Lemma seg_run (xs : list sample) :
  forall st,
  let o := step_algo_output st in
  let o' := step_algo_output (run_samples st xs) in
  seg (prev_max_ts o) (prev_min_ts o) (run_commits st xs) (prev_max_ts o') (prev_min_ts o').
Proof.
  induction xs as [|x xs IH]; intros st; cbn zeta.
  - apply seg_nil.
  - rewrite run_commits_cons, run_trace_one.
    change (run_samples st (x :: xs)) with (run_samples (run_samples st [x]) xs).
    cbn [run_samples]. rewrite push_sample_preproc. cbn zeta.
    destruct (step_algo_preproc_keeps st (s_timestamp x) (s_arx x) (s_ary x) (s_arz x)
                (s_grx x) (s_gry x) (s_grz x)) as (_ & _ & _ & _ & _ & E1 & _).
    set (p := step_algo_preproc _ _ _ _ _ _ _ _) in *.
    rewrite <- E1.
    destruct (Nat.eqb (fst p) 1); cbn [snd].
    + eapply seg_app; [apply seg_batch | apply IH].
    + apply IH.
Qed.

(** C5: for each kind, a commit is admitted only more than
    [NO_DETECT_DUR_SEC] after the previous commit of the same kind: in the
    commit sequence of every run from the initial state, any earlier commit
    and any later commit of the same kind have timestamps more than
    [NO_DETECT_DUR_SEC] apart (so same-kind extrema closer than 0.2 s give at
    most one commit). *)
Theorem dead_time_gating (xs : list sample) :
  ForallOrdPairs dead_time_sep (run_commits init_state xs).
Proof.
  exact (proj1 (seg_run xs init_state)).
Qed.

(** ** Batches without commit *)

Lemma det_mono_refl (d : det) : det_mono d d.
Proof. repeat split; auto; apply Qle_refl. Qed.

Lemma det_mono_trans (d1 d2 d3 : det) : det_mono d1 d2 -> det_mono d2 d3 -> det_mono d1 d3.
Proof.
  intros (A1 & B1 & C1 & D1 & E1 & F1) (A2 & B2 & C2 & D2 & E2 & F2).
  split; [lia|]. split; [lia|]. split; [|split; [|split]].
  - intros E. rewrite C2 by lia. apply C1. lia.
  - intros E. rewrite D2 by lia. apply D1. lia.
  - eapply Qle_trans; eauto.
  - eapply Qle_trans; eauto.
Qed.

Lemma detect_body_mono (der filt ts : list Q) (i : nat) (d : det) :
  det_mono d (detect_body der filt ts i d).
Proof.
  destruct (detect_body_cases der filt ts i d) as [H | [H | H]].
  - destruct H as (H1 & H2 & H3 & H4 & _ & _ & H7 & H8).
    repeat split; auto; lia.
  - destruct H as (_ & H2 & H3 & _ & H5 & H6 & H7 & H8 & _).
    split; [lia|]. split; [lia|]. split; [intros; lia|]. split; [auto|].
    split; [rewrite H5; unfold NO_DETECT_DUR_SEC in H6; lra | rewrite H8; apply Qle_refl].
  - destruct H as (_ & H2 & H3 & _ & H5 & H6 & H7 & H8 & _).
    split; [lia|]. split; [lia|]. split; [auto|]. split; [intros; lia|].
    split; [rewrite H8; apply Qle_refl | rewrite H5; unfold NO_DETECT_DUR_SEC in H6; lra].
Qed.

Lemma batch_det_mono (st : state) :
  det_mono (det_init (step_algo_output st) (prevAccDer st)) (batch_det st).
Proof.
  destruct (der_loop st) as [[[ll der] filt] ts] eqn:E.
  rewrite (batch_det_def _ _ _ _ _ E).
  apply for_loop_rel; [exact det_mono_refl | exact det_mono_trans | apply detect_body_mono].
Qed.

Lemma classify_zero (amp freq : Q) (walk run hop : Z) :
  (0 <= walk < UINT_MOD)%Z -> (0 <= run < UINT_MOD)%Z -> (0 <= hop < UINT_MOD)%Z ->
  let '(_, walk', run', hop') := classify amp freq 0 walk run hop in
  walk' = walk /\ run' = run /\ hop' = hop.
Proof.
  intros Hw Hr Hh. unfold classify, u32. cbn [Z.of_nat]. rewrite !Z.add_0_r.
  rewrite !Z.mod_small by assumption.
  destruct (qleb amp SMALL_AMP); [destruct (qleb freq SLOW_FREQ)|
    destruct (qleb LARGE_AMP amp); destruct (qleb FAST_FREQ freq)]; auto.
Qed.

(** C10 (as the code has it): for every state whose unsigned counters are
    in range, a batch with no maximum and no minimum commit leaves
    [step_count], [prev_max], [prev_min] and the per-class counters
    unchanged, while [prev_max_ts] and [prev_min_ts] may only move forward
    (the [MAX_TIME_PERIOD_SEC] clamp of lines 303-305 and 327-329). *)
Theorem no_commit_frame (st : state)
    (Hmax : count_max_det (batch_det st) = 0%nat)
    (Hmin : count_min_det (batch_det st) = 0%nat)
    (Hsc : (0 <= step_count (step_algo_output st) < UINT_MOD)%Z)
    (Hw : (0 <= num_steps_walk st < UINT_MOD)%Z)
    (Hr : (0 <= num_steps_run st < UINT_MOD)%Z)
    (Hh : (0 <= num_steps_hop st < UINT_MOD)%Z) :
  let o := step_algo_output st in
  let st' := step_algo_run st in
  let o' := step_algo_output st' in
  step_count o' = step_count o /\ prev_max o' = prev_max o /\ prev_min o' = prev_min o /\
  num_steps_walk st' = num_steps_walk st /\ num_steps_run st' = num_steps_run st /\
  num_steps_hop st' = num_steps_hop st /\
  prev_max_ts o <= prev_max_ts o' /\ prev_min_ts o <= prev_min_ts o'.
Proof.
  cbn zeta.
  destruct (batch_det_mono st) as (_ & _ & Cx & Cn & Tx & Tn).
  cbn [count_max_det count_min_det det_init prev_max_val prev_min_val
       d_prev_max_ts d_prev_min_ts] in Cx, Cn, Tx, Tn.
  destruct (step_algo_run_out st) as (Ec & _ & E3 & E4 & E5 & E6 & Ew & Er & Eh).
  rewrite Ec, E3, E4, E5, E6, Ew, Er, Eh, Hmin, (Cx Hmax), (Cn Hmin).
  clear Ec E3 E4 E5 E6 Ew Er Eh.
  pose proof (classify_zero
    (fst (amp_update (batch_det st) (prev_amp_est st) (amp_est_hold st)))
    (fst (freq_update (period_update (batch_det st)) (prev_freq_est st) (freq_est_hold st)))
    (num_steps_walk st) (num_steps_run st) (num_steps_hop st) Hw Hr Hh) as Hc.
  destruct (classify _ _ _ _ _ _) as [[[ty w] r] h].
  destruct Hc as (-> & -> & ->). cbn [fst snd].
  split; [unfold u32; rewrite Z.add_0_r; apply Z.mod_small; exact Hsc|].
  split; [reflexivity|]. split; [reflexivity|]. split; [reflexivity|].
  split; [reflexivity|]. split; [reflexivity|]. split; [exact Tx | exact Tn].
Qed.

Lemma no_commit_frame_witness :
  count_max_det (batch_det init_state) = 0%nat /\
  count_min_det (batch_det init_state) = 0%nat /\
  let o := step_algo_output init_state in
  let st' := step_algo_run init_state in
  let o' := step_algo_output st' in
  step_count o' = step_count o /\ prev_max o' = prev_max o /\ prev_min o' = prev_min o /\
  num_steps_walk st' = num_steps_walk init_state /\ num_steps_run st' = num_steps_run init_state /\
  num_steps_hop st' = num_steps_hop init_state /\
  prev_max_ts o <= prev_max_ts o' /\ prev_min_ts o <= prev_min_ts o'.
Proof.
  assert (Hmax : count_max_det (batch_det init_state) = 0%nat) by (vm_compute; reflexivity).
  assert (Hmin : count_min_det (batch_det init_state) = 0%nat) by (vm_compute; reflexivity).
  split; [exact Hmax|]. split; [exact Hmin|].
  apply (no_commit_frame init_state Hmax Hmin); unfold UINT_MOD; simpl; lia.
Defined.

(** C10: a batch with no commit can still change [prev_max_ts]: on input
    [xs10] (a pause of 2 s before sample 44) the batch run at sample 52
    commits nothing but moves [prev_max_ts] forward from 0. *)
Lemma no_commit_frame_counterexample :
  ~ (forall st : state,
       count_max_det (batch_det st) = 0%nat -> count_min_det (batch_det st) = 0%nat ->
       prev_max_ts (step_algo_output (step_algo_run st)) = prev_max_ts (step_algo_output st)).
Proof.
  intro H.
  assert (H1 : count_max_det (batch_det st10) = 0%nat) by (vm_compute; reflexivity).
  assert (H2 : count_min_det (batch_det st10) = 0%nat) by (vm_compute; reflexivity).
  specialize (H st10 H1 H2). vm_compute in H. discriminate H.
Qed.

(** ** Growth of the counters *)

Lemma loop_cmin_bound (der filt ts : list Q) (n : nat) :
  forall i d,
  (count_min_det (for_loop (detect_body der filt ts) i n d) <= count_min_det d + n)%nat.
Proof.
  induction n as [|n IH]; intros i d; [cbn; lia|].
  rewrite for_loop_S. specialize (IH (S i) (detect_body der filt ts i d)).
  destruct (detect_body_cases der filt ts i d) as [H | [H | H]].
  - destruct H as (_ & H & _). lia.
  - destruct H as (_ & _ & H & _). lia.
  - destruct H as (_ & H & _). lia.
Qed.

Lemma batch_cmin_bound (st : state) : (count_min_det (batch_det st) <= 52)%nat.
Proof.
  destruct (der_loop st) as [[[ll der] filt] ts] eqn:E.
  rewrite (batch_det_def _ _ _ _ _ E).
  exact (loop_cmin_bound der filt ts SAMP_BUFF_LEN 0 (det_init (step_algo_output st) (prevAccDer st))).
Qed.

(** without wrap-around, [classify] adds the count to at most one counter
    and never lowers one *)
Lemma classify_nowrap (amp freq : Q) (cmin : nat) (walk run hop : Z) :
  (0 <= walk)%Z -> (0 <= run)%Z -> (0 <= hop)%Z ->
  (walk + run + hop + Z.of_nat cmin < UINT_MOD)%Z ->
  let '(ty, walk', run', hop') := classify amp freq cmin walk run hop in
  (ty = STATIC /\ walk' = walk /\ run' = run /\ hop' = hop) \/
  (ty <> STATIC /\ (walk <= walk')%Z /\ (run <= run')%Z /\ (hop <= hop')%Z /\
   (walk' + run' + hop' = walk + run + hop + Z.of_nat cmin)%Z).
Proof.
  intros Hw Hr Hh Hb. unfold classify, u32.
  assert (Hc : (0 <= Z.of_nat cmin)%Z) by lia.
  rewrite (Z.mod_small (walk + Z.of_nat cmin)), (Z.mod_small (run + Z.of_nat cmin)),
          (Z.mod_small (hop + Z.of_nat cmin)) by lia.
  destruct (qleb amp SMALL_AMP); [destruct (qleb freq SLOW_FREQ)|
    destruct (qleb LARGE_AMP amp); destruct (qleb FAST_FREQ freq)];
    first [left; repeat split; reflexivity | right; split; [discriminate|]; lia].
Qed.

Lemma counters_step (xs : list sample) (x : sample) :
  (Z.of_nat (S (length xs)) < UINT_MOD)%Z ->
  counters_ok (run_samples init_state xs) (length xs) ->
  let st := run_samples init_state xs in
  let st' := run_samples init_state (xs ++ [x]) in
  counters_ok st' (S (length xs)) /\
  (step_count (step_algo_output st) <= step_count (step_algo_output st'))%Z /\
  (num_steps_walk st <= num_steps_walk st')%Z /\
  (num_steps_run st <= num_steps_run st')%Z /\
  (num_steps_hop st <= num_steps_hop st')%Z.
Proof.
  intros Hb Hok. cbn zeta.
  rewrite run_samples_app. cbn [run_samples]. rewrite push_sample_preproc. cbn zeta.
  destruct (run_samples_count xs) as (Hcnt & _). cbn zeta in Hcnt.
  set (st := run_samples init_state xs) in *.
  destruct (step_algo_preproc_keeps st (s_timestamp x) (s_arx x) (s_ary x) (s_arz x)
              (s_grx x) (s_gry x) (s_grz x)) as (_ & _ & _ & _ & _ & E1 & E2 & E3 & E4).
  destruct (step_algo_preproc_fields st (s_timestamp x) (s_arx x) (s_ary x) (s_arz x)
              (s_grx x) (s_gry x) (s_grz x)) as (_ & _ & _ & _ & _ & Hf).
  cbn zeta in E1, E2, E3, E4, Hf.
  set (p := step_algo_preproc _ _ _ _ _ _ _ _) in *.
  pose proof (count_step _ _ (eq_sym Hcnt)) as Hs.
  unfold counters_ok in Hok |- *.
  destruct Hok as (Hw & Hr & Hh & Hsc & HT). rewrite <- Hcnt in HT.
  rewrite Nat2Z.inj_succ.
  destruct (Nat.eqb_spec (S (count st)) SAMP_BUFF_LEN) as [Ec|Ec];
    destruct Hf as [Hf1 _]; rewrite Hf1, Hs; cbn [Nat.eqb snd].
  - change SAMP_BUFF_LEN with 52%nat in Ec.
    pose proof (batch_cmin_bound (snd p)) as Hc52.
    pose proof (static_no_steps (snd p)) as Hst.
    destruct (step_algo_run_out (snd p)) as (Ec' & Et & _ & _ & _ & _ & Ew & Er & Eh).
    rewrite Et, E2, E3, E4 in Hst. rewrite Ec', Ew, Er, Eh, E1, E2, E3, E4.
    clear Ec' Et Ew Er Eh.
    set (c := count_min_det (batch_det (snd p))) in *.
    assert (Hcount : count st = 51%nat) by lia. rewrite Hcount in HT.
    cbn [Z.of_nat Pos.of_succ_nat Pos.succ] in HT |- *.
    assert (HcZ : (Z.of_nat c <= 52)%Z) by lia.
    pose proof (classify_nowrap
      (fst (amp_update (batch_det (snd p)) (prev_amp_est (snd p)) (amp_est_hold (snd p))))
      (fst (freq_update (period_update (batch_det (snd p))) (prev_freq_est (snd p))
                        (freq_est_hold (snd p))))
      c (num_steps_walk st) (num_steps_run st) (num_steps_hop st) Hw Hr Hh ltac:(lia)) as Hc.
    destruct (classify _ _ _ _ _ _) as [[[ty w] r] h].
    cbn [fst snd] in *.
    assert (Hu : u32 (step_count (step_algo_output st) + Z.of_nat c) =
                 (step_count (step_algo_output st) + Z.of_nat c)%Z)
      by (unfold u32; apply Z.mod_small; lia).
    rewrite Hu.
    destruct Hc as [(-> & -> & -> & ->) | (_ & H1 & H2 & H3 & H4)].
    + rewrite (Hst eq_refl). cbn [Z.of_nat]. lia.
    + lia.
  - rewrite E1, E2, E3, E4. lia.
Qed.

Lemma counters_ok_run (xs : list sample) :
  (Z.of_nat (length xs) < UINT_MOD)%Z -> counters_ok (run_samples init_state xs) (length xs).
Proof.
  induction xs as [|x xs IH] using rev_ind; intros Hb.
  - unfold counters_ok. cbn. lia.
  - rewrite length_app, Nat.add_comm in *. cbn [length Nat.add] in *.
    apply (counters_step xs x Hb). apply IH. lia.
Qed.

(** as long as fewer than 2^32 samples have been pushed since the initial
    state, no call lowers [step_count] or a per-class counter *)
Theorem counters_monotone_bounded (xs : list sample) (x : sample)
    (Hb : (Z.of_nat (S (length xs)) < UINT_MOD)%Z) :
  let st := run_samples init_state xs in
  let st' := run_samples init_state (xs ++ [x]) in
  (step_count (step_algo_output st) <= step_count (step_algo_output st'))%Z /\
  (num_steps_walk st <= num_steps_walk st')%Z /\
  (num_steps_run st <= num_steps_run st')%Z /\
  (num_steps_hop st <= num_steps_hop st')%Z.
Proof.
  exact (proj2 (counters_step xs x Hb (counters_ok_run xs ltac:(lia)))).
Qed.

Lemma counters_monotone_bounded_witness :
  (Z.of_nat (S (length xs1)) < UINT_MOD)%Z /\
  let st := run_samples init_state xs1 in
  let st' := run_samples init_state (xs1 ++ [mk_sample 1 0 0 0 0 0 0]) in
  (step_count (step_algo_output st) <= step_count (step_algo_output st'))%Z /\
  (num_steps_walk st <= num_steps_walk st')%Z /\
  (num_steps_run st <= num_steps_run st')%Z /\
  (num_steps_hop st <= num_steps_hop st')%Z.
Proof.
  assert (Hb : (Z.of_nat (S (length xs1)) < UINT_MOD)%Z) by (vm_compute; reflexivity).
  split; [exact Hb | exact (counters_monotone_bounded xs1 _ Hb)].
Defined.

(** ** The amplitude and frequency estimates *)

Lemma step_algo_run_est (st : state) :
  let d := batch_det st in
  prev_amp_est (step_algo_run st) = fst (amp_update d (prev_amp_est st) (amp_est_hold st)) /\
  amp_est_hold (step_algo_run st) = snd (amp_update d (prev_amp_est st) (amp_est_hold st)) /\
  prev_freq_est (step_algo_run st) =
    fst (freq_update (period_update d) (prev_freq_est st) (freq_est_hold st)) /\
  freq_est_hold (step_algo_run st) =
    snd (freq_update (period_update d) (prev_freq_est st) (freq_est_hold st)).
Proof.
  cbn zeta. unfold step_algo_run.
  destruct (der_loop st) as [[[ll' der] filt] ts].
  destruct (amp_update _ _ _) as [amp ah].
  destruct (freq_update _ _ _) as [freq fh].
  destruct (for_loop (tail_body _ _ _) _ _ _) as [filt' ts'].
  destruct (classify _ _ _ _ _ _) as [[[ty w] r] h].
  repeat split.
Qed.

Lemma step_algo_preproc_est (st : state) (t rx ry rz gx gy gz : Q) :
  let st' := snd (step_algo_preproc st t rx ry rz gx gy gz) in
  prev_amp_est st' = prev_amp_est st /\ amp_est_hold st' = amp_est_hold st /\
  prev_freq_est st' = prev_freq_est st /\ freq_est_hold st' = freq_est_hold st.
Proof.
  unfold step_algo_preproc. destruct (apply_filter _ _). cbn zeta.
  destruct (Nat.eqb _ _); repeat split; reflexivity.
Qed.

(** a property of the four estimate statics kept by the preprocessing and
    by every call of [step_algo_run] holds after every sample *)
Lemma est_invariant (P : Q -> nat -> Q -> nat -> Prop) :
  P 0 0%nat 0 0%nat ->
  (forall st, P (prev_amp_est st) (amp_est_hold st) (prev_freq_est st) (freq_est_hold st) ->
     let st' := step_algo_run st in
     P (prev_amp_est st') (amp_est_hold st') (prev_freq_est st') (freq_est_hold st')) ->
  forall xs, let st := run_samples init_state xs in
  P (prev_amp_est st) (amp_est_hold st) (prev_freq_est st) (freq_est_hold st).
Proof.
  intros H0 Hrun xs. induction xs as [|x xs IH] using rev_ind; cbn zeta in *.
  - exact H0.
  - rewrite run_samples_app. cbn [run_samples].
    rewrite push_sample_preproc. cbn zeta.
    set (st := run_samples init_state xs) in *.
    destruct (step_algo_preproc_est st (s_timestamp x) (s_arx x) (s_ary x) (s_arz x)
                (s_grx x) (s_gry x) (s_grz x)) as (E1 & E2 & E3 & E4).
    set (p := step_algo_preproc _ _ _ _ _ _ _ _) in *.
    assert (Hp : P (prev_amp_est (snd p)) (amp_est_hold (snd p))
                   (prev_freq_est (snd p)) (freq_est_hold (snd p)))
      by (rewrite E1, E2, E3, E4; exact IH).
    destruct (Nat.eqb (fst p) 1); cbn [snd].
    + exact (Hrun (snd p) Hp).
    + exact Hp.
Qed.


Lemma amp_update_range (d : det) (pa : Q) (h : nat) :
  ((0 < count_min_det d)%nat ->
   CLOSE_TO_ZERO * inject_Z (Z.of_nat (count_min_det d)) < amp_est d) ->
  let a := fst (amp_update d pa h) in
  if Nat.ltb 0 (count_min_det d)
  then CLOSE_TO_ZERO < a /\ snd (amp_update d pa h) = 0%nat
  else a = pa \/ a = 0.
Proof.
  intros H. cbn zeta. unfold amp_update.
  destruct (Nat.ltb_spec 0 (count_min_det d)) as [Hc|Hc].
  - specialize (H Hc).
    set (N := inject_Z (Z.of_nat (count_min_det d))) in *.
    assert (HN : 1 <= N).
    { subst N. change 1 with (inject_Z 1). rewrite <- Zle_Qle. lia. }
    change (Nat.ltb BUFF_FACTOR 0) with false. cbn [fst snd].
    split; [|reflexivity].
    rewrite qdiv_eq. apply Qlt_shift_div_l; lra.
  - destruct (Nat.ltb BUFF_FACTOR (S h)); cbn [fst]; auto.
Qed.

Lemma detect_body_amp (der filt ts : list Q) (i : nat) (d : det) :
  let d' := detect_body der filt ts i d in
  (count_min_det d' = count_min_det d /\ amp_est d' == amp_est d) \/
  ((count_min_det d < count_min_det d')%nat /\
   CLOSE_TO_ZERO * (inject_Z (Z.of_nat (count_min_det d')) - inject_Z (Z.of_nat (count_min_det d)))
     < amp_est d' - amp_est d).
Proof.
  cbn zeta.
  destruct (detect_body_cases der filt ts i d) as [H | [H | H]];
    set (d' := detect_body der filt ts i d) in *.
  - destruct H as (_ & H2 & _ & _ & _ & H6 & _). left. rewrite H2, H6. split; reflexivity.
  - destruct H as (_ & _ & H3 & _ & _ & _ & _ & _ & _ & _ & H11 & _).
    left. rewrite H3, H11. split; reflexivity.
  - destruct H as (_ & H2 & _ & _ & _ & _ & _ & _ & H9 & H10 & _).
    right. rewrite H2, inject_nat_succ. split; [lia|].
    rewrite H10. rewrite qsub_eq in H9. lra.
Qed.

Lemma batch_det_amp (st : state) :
  let d := batch_det st in
  (0 < count_min_det d)%nat ->
  CLOSE_TO_ZERO * inject_Z (Z.of_nat (count_min_det d)) < amp_est d.
Proof.
  cbn zeta.
  destruct (der_loop st) as [[[ll' der] filt] ts] eqn:E.
  rewrite (batch_det_def _ _ _ _ _ E).
  set (R := fun x y : det =>
    (count_min_det y = count_min_det x /\ amp_est y == amp_est x) \/
    ((count_min_det x < count_min_det y)%nat /\
     CLOSE_TO_ZERO * (inject_Z (Z.of_nat (count_min_det y)) - inject_Z (Z.of_nat (count_min_det x)))
       < amp_est y - amp_est x)).
  assert (HR : R (det_init (step_algo_output st) (prevAccDer st))
                 (for_loop (detect_body der filt ts) 0 SAMP_BUFF_LEN
                    (det_init (step_algo_output st) (prevAccDer st)))).
  { apply for_loop_rel.
    - intros a. left. split; reflexivity.
    - intros a b c [(Hab & Eab) | (Hab & Eab)] [(Hbc & Ebc) | (Hbc & Ebc)].
      + left. split; [congruence | rewrite Ebc; exact Eab].
      + right. rewrite Hab in Hbc, Ebc. split; [exact Hbc|]. rewrite Eab in Ebc. exact Ebc.
      + right. rewrite Hbc. split; [exact Hab|]. rewrite Ebc. exact Eab.
      + right. split; [lia|]. lra.
    - intros i a. apply detect_body_amp. }
  set (dd := for_loop _ _ _ _) in *.
  destruct HR as [(H1 & _) | (_ & H2)]; cbn [count_min_det amp_est det_init] in *.
  - intros Hc. lia.
  - intros _. change (inject_Z (Z.of_nat 0)) with 0 in H2. lra.
Qed.


(** Extra X4: after a batch with at least one committed minimum, the amplitude
    estimate [prev_amp_est] exceeds [CLOSE_TO_ZERO]; so every state reached
    from the initial state holds an amplitude estimate that is 0 or above
    [CLOSE_TO_ZERO]. *)
Theorem amp_estimate_range :
  (forall st, (0 < count_min_det (batch_det st))%nat ->
     CLOSE_TO_ZERO < prev_amp_est (step_algo_run st)) /\
  (forall xs, let a := prev_amp_est (run_samples init_state xs) in
     a = 0 \/ CLOSE_TO_ZERO < a).
Proof.
  split.
  - intros st Hc.
    destruct (step_algo_run_est st) as (E & _ & _ & _). cbn zeta in E. rewrite E.
    pose proof (amp_update_range (batch_det st) (prev_amp_est st) (amp_est_hold st)
                  (batch_det_amp st)) as H.
    cbn zeta in H. apply Nat.ltb_lt in Hc. rewrite Hc in H.
    destruct H as (H1 & _). exact H1.
  - intros xs.
    apply (est_invariant (fun a _ _ _ => a = 0 \/ CLOSE_TO_ZERO < a)).
    + left. reflexivity.
    + intros st Hst. cbn zeta.
      destruct (step_algo_run_est st) as (E & _ & _ & _). cbn zeta in E. rewrite E.
      pose proof (amp_update_range (batch_det st) (prev_amp_est st) (amp_est_hold st)
                    (batch_det_amp st)) as H.
      cbn zeta in H.
      destruct (Nat.ltb 0 _).
      * right. destruct H as (H1 & _). exact H1.
      * destruct H as [H | H]; rewrite H; [exact Hst | left; reflexivity].
Qed.

Lemma amp_update_nomin (d : det) (a : Q) (h : nat) :
  count_min_det d = 0%nat ->
  amp_update d a h = if Nat.ltb BUFF_FACTOR (S h) then (0, 0%nat) else (a, S h).
Proof. intros H. unfold amp_update. rewrite H. reflexivity. Qed.

Lemma freq_update_noperiod (p f : Q) (h : nat) :
  p <= EPSILON ->
  freq_update p f h = if Nat.ltb BUFF_FACTOR (S h) then (0, 0%nat) else (f, S h).
Proof. intros H. unfold freq_update. apply qltb_false in H. rewrite H. reflexivity. Qed.

(** Extra X2: as long as fewer than 2^32 samples have been pushed since the
    initial state, [step_count] equals the sum of the three class counters,
    all three are non-negative, and the total is at most the number of
    samples of the batches processed so far (the samples still waiting in the
    buffer have given no step). *)
Theorem step_total_bound (xs : list sample) (Hb : (Z.of_nat (length xs) < UINT_MOD)%Z) :
  let st := run_samples init_state xs in
  step_count (step_algo_output st) = (num_steps_walk st + num_steps_run st + num_steps_hop st)%Z /\
  (0 <= num_steps_walk st)%Z /\ (0 <= num_steps_run st)%Z /\ (0 <= num_steps_hop st)%Z /\
  (step_count (step_algo_output st) <= Z.of_nat (length xs - Nat.modulo (length xs) SAMP_BUFF_LEN))%Z.
Proof.
  cbn zeta. destruct (counters_ok_run xs Hb) as (H1 & H2 & H3 & H4 & H5).
  rewrite Nat2Z.inj_sub by (apply Nat.Div0.mod_le).
  change SAMP_BUFF_LEN with 52%nat. lia.
Qed.

(** Extra X5: the two hold counters never exceed [BUFF_FACTOR]; with no
    minimum committed the amplitude estimate survives two batches from a zero
    hold and is reset to 0 by the third, and likewise the frequency estimate
    with three periods at most [EPSILON]. *)
Theorem estimate_hold_decay :
  (forall d a h, (snd (amp_update d a h) <= BUFF_FACTOR)%nat) /\
  (forall p f h, (snd (freq_update p f h) <= BUFF_FACTOR)%nat) /\
  (forall d1 d2 d3 a h,
     count_min_det d1 = 0%nat -> count_min_det d2 = 0%nat -> count_min_det d3 = 0%nat ->
     let p1 := amp_update d1 a h in
     let p2 := amp_update d2 (fst p1) (snd p1) in
     (h = 0%nat -> fst p2 = a) /\ fst (amp_update d3 (fst p2) (snd p2)) = 0) /\
  (forall q1 q2 q3 f h,
     q1 <= EPSILON -> q2 <= EPSILON -> q3 <= EPSILON ->
     let p1 := freq_update q1 f h in
     let p2 := freq_update q2 (fst p1) (snd p1) in
     (h = 0%nat -> fst p2 = f) /\ fst (freq_update q3 (fst p2) (snd p2)) = 0).
Proof.
  split; [|split; [|split]].
  - intros d a h. unfold amp_update.
    destruct (Nat.ltb 0 (count_min_det d)); [unfold BUFF_FACTOR; simpl; lia | destruct h as [|[|h]]; unfold BUFF_FACTOR; simpl; lia].
  - intros p f h. unfold freq_update.
    destruct (qltb EPSILON p); [unfold BUFF_FACTOR; simpl; lia | destruct h as [|[|h]]; unfold BUFF_FACTOR; simpl; lia].
  - intros d1 d2 d3 a h H1 H2 H3. cbn zeta.
    rewrite (amp_update_nomin d1 a h H1).
    destruct h as [|[|h]]; cbn [Nat.ltb Nat.leb BUFF_FACTOR fst snd];
      rewrite (amp_update_nomin d2 _ _ H2); cbn [Nat.ltb Nat.leb BUFF_FACTOR fst snd];
      rewrite (amp_update_nomin d3 _ _ H3); split; try reflexivity; discriminate.
  - intros q1 q2 q3 f h H1 H2 H3. cbn zeta.
    rewrite (freq_update_noperiod q1 f h H1).
    destruct h as [|[|h]]; cbn [Nat.ltb Nat.leb BUFF_FACTOR fst snd];
      rewrite (freq_update_noperiod q2 _ _ H2); cbn [Nat.ltb Nat.leb BUFF_FACTOR fst snd];
      rewrite (freq_update_noperiod q3 _ _ H3); split; try reflexivity; discriminate.
Qed.

Lemma step_total_bound_witness :
  (Z.of_nat (length xs1) < UINT_MOD)%Z /\
  let st := run_samples init_state xs1 in
  step_count (step_algo_output st) = (num_steps_walk st + num_steps_run st + num_steps_hop st)%Z /\
  (0 <= num_steps_walk st)%Z /\ (0 <= num_steps_run st)%Z /\ (0 <= num_steps_hop st)%Z /\
  (step_count (step_algo_output st) <= Z.of_nat (length xs1 - Nat.modulo (length xs1) SAMP_BUFF_LEN))%Z.
Proof.
  assert (Hb : (Z.of_nat (length xs1) < UINT_MOD)%Z) by (vm_compute; reflexivity).
  split; [exact Hb | exact (step_total_bound xs1 Hb)].
Defined.

(** the tail loop writes [bufY] and [bufT] from [SAMP_BUFF_LEN - TC] on into
    the indices [i .. i + n - 1] and nothing else *)
Lemma tail_loop_gen (TC : nat) (bufY bufT : list Q) (n : nat) :
  forall i filt ts,
  (i + n <= length filt)%nat -> (i + n <= length ts)%nat ->
  let '(filt', ts') := for_loop (tail_body TC bufY bufT) i n (filt, ts) in
  forall m,
  ((i <= m < i + n)%nat ->
     get filt' m = get bufY (SAMP_BUFF_LEN - TC + m) /\
     get ts' m = get bufT (SAMP_BUFF_LEN - TC + m)) /\
  ((m < i \/ i + n <= m)%nat -> get filt' m = get filt m /\ get ts' m = get ts m).
Proof.
  induction n as [|n IH]; intros i filt ts Hf Ht.
  - cbn [for_loop]. intros m. split; intros Hm; [lia | split; reflexivity].
  - rewrite for_loop_S.
    change (tail_body TC bufY bufT i (filt, ts))
      with (set filt i (get bufY (SAMP_BUFF_LEN - TC + i)),
            set ts i (get bufT (SAMP_BUFF_LEN - TC + i))).
    specialize (IH (S i) (set filt i (get bufY (SAMP_BUFF_LEN - TC + i)))
                   (set ts i (get bufT (SAMP_BUFF_LEN - TC + i)))).
    rewrite !length_set in IH. specialize (IH ltac:(lia) ltac:(lia)).
    destruct (for_loop _ _ _ _) as [filt' ts'].
    intros m. destruct (IH m) as [IH1 IH2].
    destruct (Nat.eq_dec m i) as [->|Hm].
    + split; intros Hm; [|lia].
      destruct IH2 as [-> ->]; [lia|].
      rewrite !get_set_eq by lia. split; reflexivity.
    + split; intros Hm'.
      * apply IH1. lia.
      * destruct IH2 as [-> ->]; [lia|].
        rewrite !get_set_neq by exact Hm. split; reflexivity.
Qed.

(** the derivative loop leaves the extended arrays past [TC_samples +
    SAMP_BUFF_LEN] as they were *)
Lemma der_loop_beyond (st : state) :
  let TC := TC_samples (ll_filter_y st) in
  (TC + SAMP_BUFF_LEN <= length (AccFilt st))%nat ->
  (TC + SAMP_BUFF_LEN <= length (TimeStamps st))%nat ->
  let '(ll', der, filt, ts) := der_loop st in
  forall m, (TC + SAMP_BUFF_LEN <= m)%nat ->
  get filt m = get (AccFilt st) m /\ get ts m = get (TimeStamps st) m.
Proof.
  cbn zeta. intros Hf Ht. unfold der_loop.
  pose proof (der_loop_gen (TC_samples (ll_filter_y st)) (AccBuffY st) (AccBuffT st)
                SAMP_BUFF_LEN 0 (ll_filter_y st) (AccDer st) (AccFilt st) (TimeStamps st))
    as G.
  rewrite Nat.add_0_r in G. specialize (G Hf Ht).
  destruct (for_loop _ _ _ _) as [[[ll' der] filt] ts].
  destruct G as (_ & _ & _ & _ & G5 & G6).
  intros m Hm. rewrite G5, G6.
  destruct (Nat.ltb_spec m (TC_samples (ll_filter_y st) + SAMP_BUFF_LEN)); [lia|].
  rewrite andb_false_r. split; reflexivity.
Qed.

(** Extra X6: after [step_algo_run], the extended arrays hold the batch just
    processed behind a prefix of [TC_samples] entries, and that prefix holds
    the last [TC_samples] entries of the same batch (values in [AccFilt],
    timestamps in [TimeStamps]); the entries past [TC_samples +
    SAMP_BUFF_LEN] are left as they were. *)
Theorem tail_carry_over (st : state)
    (Hf : (TC_samples (ll_filter_y st) + SAMP_BUFF_LEN <= length (AccFilt st))%nat)
    (Ht : (TC_samples (ll_filter_y st) + SAMP_BUFF_LEN <= length (TimeStamps st))%nat)
    (HTC : (TC_samples (ll_filter_y st) <= SAMP_BUFF_LEN)%nat) :
  let TC := TC_samples (ll_filter_y st) in
  let st' := step_algo_run st in
  (forall j, (j < TC)%nat ->
     get (AccFilt st') j = get (AccBuffY st) (SAMP_BUFF_LEN - TC + j) /\
     get (TimeStamps st') j = get (AccBuffT st) (SAMP_BUFF_LEN - TC + j)) /\
  (forall j, (j < SAMP_BUFF_LEN)%nat ->
     get (AccFilt st') (TC + j) = get (AccBuffY st) j /\
     get (TimeStamps st') (TC + j) = get (AccBuffT st) j) /\
  (forall m, (TC + SAMP_BUFF_LEN <= m)%nat ->
     get (AccFilt st') m = get (AccFilt st) m /\
     get (TimeStamps st') m = get (TimeStamps st) m).
Proof.
  cbn zeta.
  pose proof (der_loop_layout st Hf Ht) as G.
  pose proof (der_loop_beyond st Hf Ht) as G'.
  unfold step_algo_run.
  set (TC := TC_samples (ll_filter_y st)) in *.
  destruct (der_loop st) as [[[ll' der] filt] ts].
  destruct G as (_ & G2 & G3 & G4).
  
  pose proof (tail_loop_gen TC (AccBuffY st) (AccBuffT st) TC 0 filt ts
                ltac:(lia) ltac:(lia)) as L.
  destruct (for_loop (tail_body _ _ _) 0 _ (filt, ts)) as [filt' ts'].
  destr_lets. cbn [AccFilt TimeStamps].
  split; [|split].
  - intros j Hj. apply (L j). lia.
  - intros j Hj. destruct (L (TC + j)%nat) as [_ L2]. destruct L2 as [-> ->]; [lia|].
    apply G4. exact Hj.
  - intros k Hk. destruct (L k) as [_ L2]. destruct L2 as [-> ->]; [lia|].
    apply G'. exact Hk.
Qed.

Lemma tail_carry_over_witness :
  (TC_samples (ll_filter_y init_state) + SAMP_BUFF_LEN <= length (AccFilt init_state))%nat /\
  (TC_samples (ll_filter_y init_state) + SAMP_BUFF_LEN <= length (TimeStamps init_state))%nat /\
  (TC_samples (ll_filter_y init_state) <= SAMP_BUFF_LEN)%nat /\
  let st := init_state in
  let TC := TC_samples (ll_filter_y st) in
  let st' := step_algo_run st in
  (forall j, (j < TC)%nat ->
     get (AccFilt st') j = get (AccBuffY st) (SAMP_BUFF_LEN - TC + j) /\
     get (TimeStamps st') j = get (AccBuffT st) (SAMP_BUFF_LEN - TC + j)) /\
  (forall j, (j < SAMP_BUFF_LEN)%nat ->
     get (AccFilt st') (TC + j) = get (AccBuffY st) j /\
     get (TimeStamps st') (TC + j) = get (AccBuffT st) j) /\
  (forall m, (TC + SAMP_BUFF_LEN <= m)%nat ->
     get (AccFilt st') m = get (AccFilt st) m /\
     get (TimeStamps st') m = get (TimeStamps st) m).
Proof.
  assert (Hf : (TC_samples (ll_filter_y init_state) + SAMP_BUFF_LEN
                <= length (AccFilt init_state))%nat) by (apply Nat.leb_le; vm_compute; reflexivity).
  assert (Ht : (TC_samples (ll_filter_y init_state) + SAMP_BUFF_LEN
                <= length (TimeStamps init_state))%nat) by (apply Nat.leb_le; vm_compute; reflexivity).
  assert (HTC : (TC_samples (ll_filter_y init_state) <= SAMP_BUFF_LEN)%nat)
    by (apply Nat.leb_le; vm_compute; reflexivity).
  split; [exact Hf|]. split; [exact Ht|]. split; [exact HTC|].
  exact (tail_carry_over init_state Hf Ht HTC).
Defined.

(** ** Zero input *)

Lemma qsub_zero (x y : Q) : qsub x y == 0 -> qsub x y = 0.
Proof. intros H. rewrite qsub_eq in H. unfold qsub. rewrite (Qred_complete _ _ H). reflexivity. Qed.

Lemma get_set_cases (a : list Q) (i : nat) (x : Q) (j : nat) :
  get (set a i x) j = get a j \/ get (set a i x) j = x.
Proof.
  unfold get. revert i j. induction a as [|y a IH]; intros [|i] [|j]; simpl; auto.
Qed.

Lemma get_set_zero (a : list Q) (i : nat) :
  (forall j, get a j = 0) -> forall j, get (set a i 0) j = 0.
Proof. intros H j. destruct (get_set_cases a i 0 j) as [-> | ->]; auto. Qed.

(** a quiet filter fed 0 outputs 0 and stays quiet *)
Lemma apply_filter_quiet (f : filter_t) (x : Q) :
  filter_quiet f -> x == 0 ->
  fst (apply_filter f x) = 0 /\ filter_quiet (snd (apply_filter f x)) /\
  TC_samples (snd (apply_filter f x)) = TC_samples f.
Proof.
  intros (H1 & H2 & H3 & H4) Hx. unfold apply_filter. cbn [fst snd].
  match goal with |- ?o = 0 /\ _ => assert (Ho : o = 0) end.
  { apply qsub_zero. rewrite !qsub_eq, !qadd_eq, !qmul_eq, Hx, H1, H2, H3, H4. ring. }
  rewrite Ho. split; [reflexivity|]. split; [|reflexivity].
  unfold filter_quiet. cbn [prev_in prev_prev_in prev_out prev_prev_out].
  split; [exact Hx|]. split; [exact H1|]. split; [reflexivity | exact H3].
Qed.

Lemma step_algo_run_der (st : state) :
  let '(ll', der, _, _) := der_loop st in
  ll_filter_y (step_algo_run st) = ll' /\ AccDer (step_algo_run st) = der.
Proof.
  unfold step_algo_run. destruct (der_loop st) as [[[ll' der] filt] ts].
  destr_lets. split; reflexivity.
Qed.

Lemma der_loop_quiet (st : state) :
  filter_quiet (ll_filter_y st) -> (forall j, get (AccBuffY st) j = 0) ->
  (forall j, get (AccDer st) j = 0) ->
  let '(ll', der, _, _) := der_loop st in filter_quiet ll' /\ (forall j, get der j = 0).
Proof.
  intros Hq Hy Hd. unfold der_loop.
  set (P := fun x : filter_t * list Q * list Q * list Q =>
              let '(ll, der, _, _) := x in filter_quiet ll /\ (forall j, get der j = 0)).
  assert (Hb : forall i a, P a -> P (der_body (TC_samples (ll_filter_y st)) (AccBuffY st) (AccBuffT st) i a)).
  { intros i [[[ll der] filt] ts] [Hl Hr]. unfold der_body.
    pose proof (apply_filter_quiet ll (get (AccBuffY st) i) Hl ltac:(rewrite Hy; reflexivity))
      as (A1 & A2 & _).
    destruct (apply_filter ll (get (AccBuffY st) i)) as [dv ll1]. cbn [fst snd] in A1, A2.
    subst dv. split; [exact A2 | apply get_set_zero; exact Hr]. }
  pose proof (for_loop_ind P _ Hb SAMP_BUFF_LEN 0 (ll_filter_y st, AccDer st, AccFilt st, TimeStamps st)
                (conj Hq Hd)) as G.
  destruct (for_loop _ _ _ _) as [[[ll' der] filt] ts]. exact G.
Qed.

(** with a zero derivative no iteration of the detection loop commits *)
Lemma detect_body_quiet (der filt ts : list Q) (i : nat) (d : det) :
  (forall j, get der j = 0) ->
  let d' := detect_body der filt ts i d in
  count_max_det d' = count_max_det d /\ count_min_det d' = count_min_det d /\
  avg_time_period d' = avg_time_period d.
Proof.
  intros Hd. cbn zeta. unfold detect_body. rewrite !Hd.
  replace (qltb 0 (- EPSILON)) with false by reflexivity.
  replace (qltb EPSILON 0) with false by reflexivity.
  cbn [andb].
  destruct (Nat.leb delta i); destruct (qleb _ _); cbn; auto.
Qed.

Lemma batch_det_quiet (st : state) ll der filt ts :
  der_loop st = (ll, der, filt, ts) -> (forall j, get der j = 0) ->
  count_max_det (batch_det st) = 0%nat /\ count_min_det (batch_det st) = 0%nat /\
  avg_time_period (batch_det st) = 0.
Proof.
  intros E Hd. rewrite (batch_det_def _ _ _ _ _ E).
  set (P := fun x : det => count_max_det x = 0%nat /\ count_min_det x = 0%nat /\
                           avg_time_period x = 0).
  assert (Hb : forall i a, P a -> P (detect_body der filt ts i a)).
  { intros i a (H1 & H2 & H3). destruct (detect_body_quiet der filt ts i a Hd) as (E1 & E2 & E3).
    split; [congruence | split; congruence]. }
  exact (for_loop_ind P _ Hb SAMP_BUFF_LEN 0 (det_init (step_algo_output st) (prevAccDer st))
           (conj eq_refl (conj eq_refl eq_refl))).
Qed.

Lemma step_algo_run_quiet (st : state) : quiet st -> quiet (step_algo_run st).
Proof.
  intros (Q1 & Q2 & Q3 & Q4 & Q5 & Q6 & Q7 & Q8 & Q9 & Q10 & Q11).
  pose proof (der_loop_quiet st Q2 Q3 Q4) as G.
  pose proof (step_algo_run_der st) as D.
  destruct (der_loop st) as [[[ll' der] filt] ts] eqn:E.
  destruct G as [G1 G2]. destruct D as [D1 D2].
  destruct (batch_det_quiet st _ _ _ _ E G2) as (B1 & B2 & B3).
  destruct (step_algo_run_frame st) as (F1 & _ & _ & F4).
  destruct (step_algo_run_est st) as (A1 & _ & A3 & _). cbn zeta in A1, A3.
  destruct (step_algo_run_out st) as (O1 & O2 & _ & _ & _ & _ & O7 & O8 & O9).
  cbn zeta in O1, O2, O7, O8, O9.
  assert (Ha : fst (amp_update (batch_det st) (prev_amp_est st) (amp_est_hold st)) = 0).
  { rewrite (amp_update_nomin _ _ _ B2), Q5.
    destruct (Nat.ltb BUFF_FACTOR (S (amp_est_hold st))); reflexivity. }
  assert (Hf : fst (freq_update (period_update (batch_det st)) (prev_freq_est st)
                                (freq_est_hold st)) = 0).
  { unfold period_update. rewrite B1, B2. cbn [Nat.add Nat.ltb Nat.leb]. rewrite B3, Q6.
    rewrite freq_update_noperiod by (unfold EPSILON, Qle; simpl; lia).
    destruct (Nat.ltb BUFF_FACTOR (S (freq_est_hold st))); reflexivity. }
  rewrite Ha, Hf, B2, Q9, Q10, Q11 in O2, O7, O8, O9.
  rewrite B2, Q7 in O1.
  split; [rewrite F4; exact Q1|]. split; [rewrite D1; exact G1|].
  split; [rewrite F1; exact Q3|]. split; [rewrite D2; exact G2|].
  split; [rewrite A1; exact Ha|]. split; [rewrite A3; exact Hf|].
  split; [rewrite O1; reflexivity|]. split; [rewrite O2; reflexivity|].
  split; [rewrite O7; reflexivity|]. split; [rewrite O8; reflexivity|].
  rewrite O9; reflexivity.
Qed.

Lemma step_algo_preproc_quiet (st : state) (t rx ry rz gx gy gz : Q) :
  quiet st -> ry == 0 -> quiet (snd (step_algo_preproc st t rx ry rz gx gy gz)).
Proof.
  intros (Q1 & Q2 & Q3 & Q4 & Q5 & Q6 & Q7 & Q8 & Q9 & Q10 & Q11) Hy.
  pose proof (apply_filter_quiet (lp_filter_y st) ry Q1 Hy) as (A1 & A2 & _).
  unfold step_algo_preproc.
  destruct (apply_filter (lp_filter_y st) ry) as [y lp']. cbn [fst snd] in A1, A2. subst y.
  destruct (Nat.eqb _ _); cbn [snd]; unfold quiet, with_preproc;
    cbn [lp_filter_y ll_filter_y AccBuffY AccDer prev_amp_est prev_freq_est step_algo_output
         num_steps_walk num_steps_run num_steps_hop];
    (split; [exact A2|]; split; [exact Q2|]; split; [apply get_set_zero; exact Q3|];
     repeat split; assumption).
Qed.

(** Extra X7: a run that has only seen [ary] values equal to 0 counts no
    step, leaves the three class counters at 0, reports [STATIC], and keeps
    both estimates at 0, whatever the timestamps and the other channels. *)
Theorem silence_no_steps (xs : list sample)
    (Hq : forallb (fun x => Qeq_bool (s_ary x) 0) xs = true) :
  let st := run_samples init_state xs in
  step_count (step_algo_output st) = 0%Z /\ step_type (step_algo_output st) = STATIC /\
  num_steps_walk st = 0%Z /\ num_steps_run st = 0%Z /\ num_steps_hop st = 0%Z /\
  prev_amp_est st = 0 /\ prev_freq_est st = 0.
Proof.
  assert (H : quiet (run_samples init_state xs)).
  { induction xs as [|x xs IH] using rev_ind.
    - unfold quiet, filter_quiet. cbn [run_samples].
      repeat split; try reflexivity; intros j; unfold get;
        cbn [init_state AccBuffY AccDer zeros]; apply nth_repeat.
    - rewrite forallb_app in Hq. apply andb_true_iff in Hq as [Hq Hx].
      cbn [forallb] in Hx. rewrite andb_true_r in Hx. apply Qeq_bool_iff in Hx.
      rewrite run_samples_app. cbn [run_samples].
      rewrite push_sample_preproc. cbn zeta.
      pose proof (step_algo_preproc_quiet (run_samples init_state xs) (s_timestamp x) (s_arx x)
                    (s_ary x) (s_arz x) (s_grx x) (s_gry x) (s_grz x) (IH Hq) Hx) as Hp.
      destruct (Nat.eqb _ 1); cbn [snd]; [apply step_algo_run_quiet|]; exact Hp. }
  destruct H as (_ & _ & _ & _ & H5 & H6 & H7 & H8 & H9 & H10 & H11).
  cbn zeta. repeat split; assumption.
Qed.

Lemma silence_no_steps_witness :
  forallb (fun x => Qeq_bool (s_ary x) 0) xs_still = true /\
  let st := run_samples init_state xs_still in
  step_count (step_algo_output st) = 0%Z /\ step_type (step_algo_output st) = STATIC /\
  num_steps_walk st = 0%Z /\ num_steps_run st = 0%Z /\ num_steps_hop st = 0%Z /\
  prev_amp_est st = 0 /\ prev_freq_est st = 0.
Proof.
  assert (Hq : forallb (fun x => Qeq_bool (s_ary x) 0) xs_still = true) by (vm_compute; reflexivity).
  split; [exact Hq | exact (silence_no_steps xs_still Hq)].
Defined.
